(** * Pleading-Markdown-Converter: the extraction and conversion pipeline

    A shallow embedding of [src/utils/fileProcessing.ts] (class
    [FileProcessor]) and [src/utils/llmProviders.ts] (the registry
    [LLM_PROVIDERS] and class [LLMService]), with the properties the
    specification states about them.

    Conventions of the embedding.
    - A JavaScript string is a [string]: each [ascii] is one code unit below
      256, so the strings covered are the Latin-1 ones.  [trim] and
      [toLowerCase] follow ECMAScript on that range.
    - Numbers the program computes with (file sizes, clock readings, HTTP
      status codes) are integers of [Z]; numbers it only passes along
      (temperature, token counts) are IEEE doubles, [float].
    - [await] is sequential here, so an asynchronous function is a
      computation of the monad [M]: the log of the effects it performed on
      the outside world, and the value it resolved with or what it threw.
    - What lies outside the two source files (the browser's FileReader,
      mammoth, pdf.js, fetch, the clock, the engine's coercions) is a field
      of the record [World]. *)

From Stdlib Require Import String Ascii List ZArith Lia Bool PrimFloat DecimalString.
Import ListNotations.
Open Scope string_scope.

(* ================================================================= *)
(** ** ECMAScript string primitives *)

Module JsString.

(** Line feed and the double quote, for the template literals. *)
Definition newline : ascii := ascii_of_nat 10.
Definition LF : string := String newline EmptyString.
Definition DQ : string := String (ascii_of_nat 34) EmptyString.
Definition dot : ascii := ascii_of_nat 46.

(** WhiteSpace and LineTerminator code units below 256: TAB, LF, VT, FF,
    CR, SP and NBSP. *)
Definition isWhiteSpace (c : ascii) : bool :=
  let n := nat_of_ascii c in
  ((9 <=? n) && (n <=? 13) || (n =? 32) || (n =? 160))%nat.

Fixpoint trimStart (s : string) : string :=
  match s with
  | EmptyString => EmptyString
  | String c r => if isWhiteSpace c then trimStart r else s
  end.

Fixpoint trimEnd (s : string) : string :=
  match s with
  | EmptyString => EmptyString
  | String c r =>
      match trimEnd r with
      | EmptyString => if isWhiteSpace c then EmptyString else String c EmptyString
      | r' => String c r'
      end
  end.

(** [String.prototype.trim]. *)
Definition trim (s : string) : string := trimEnd (trimStart s).

(** [!s] for a string, and the guard [!s || s.trim().length === 0]. *)
Definition isEmpty (s : string) : bool :=
  match s with EmptyString => true | _ => false end.

Definition isBlank (s : string) : bool := isEmpty s || isEmpty (trim s).

(** [String.prototype.toLowerCase] on code units below 256: A-Z, and the
    Latin-1 capitals U+00C0-U+00DE but the multiplication sign U+00D7. *)
Definition lowerChar (c : ascii) : ascii :=
  let n := nat_of_ascii c in
  if ((65 <=? n) && (n <=? 90) || (192 <=? n) && (n <=? 222) && negb (n =? 215))%nat
  then ascii_of_nat (n + 32) else c.

Fixpoint toLowerCase (s : string) : string :=
  match s with
  | EmptyString => EmptyString
  | String c r => String (lowerChar c) (toLowerCase r)
  end.

(** [s.endsWith(suffix)]: some tail of [s] is [suffix]. *)
Fixpoint endsWith (s suffix : string) : bool :=
  String.eqb s suffix ||
  match s with
  | EmptyString => false
  | String _ r => endsWith r suffix
  end.

(** [s.startsWith(m)]. *)
Fixpoint startsWith (s m : string) {struct m} : bool :=
  match m with
  | EmptyString => true
  | String c m' =>
      match s with
      | EmptyString => false
      | String d s' => Ascii.eqb c d && startsWith s' m'
      end
  end.

(** [s.includes(m)]: some tail of [s] starts with [m]. *)
Fixpoint includes (s m : string) : bool :=
  startsWith s m ||
  match s with
  | EmptyString => false
  | String _ r => includes r m
  end.

(** [s.split(sep)] for a one-character separator: never the empty array. *)
Fixpoint split (sep : ascii) (s : string) : list string :=
  match s with
  | EmptyString => [EmptyString]
  | String c r =>
      if Ascii.eqb c sep then EmptyString :: split sep r
      else match split sep r with
           | seg :: segs => String c seg :: segs
           | [] => [String c EmptyString]
           end
  end.

(** [Array.prototype.pop], for its value: the last element, if any. *)
Fixpoint pop {A : Type} (l : list A) : option A :=
  match l with
  | [] => None
  | [x] => Some x
  | _ :: r => pop r
  end.

(** [Array.prototype.includes] on an array of strings. *)
Definition arrayIncludes (l : list string) (x : string) : bool :=
  existsb (String.eqb x) l.

(** [Array.prototype.join]. *)
Fixpoint join (sep : string) (l : list string) : string :=
  match l with
  | [] => EmptyString
  | [x] => x
  | x :: r => x ++ sep ++ join sep r
  end.

(** Number-to-string for an integer. *)
Definition ofInteger (z : Z) : string := NilZero.string_of_int (Z.to_int z).

(** Whether a code unit occurs in a string. *)
Fixpoint hasChar (c : ascii) (s : string) : bool :=
  match s with
  | EmptyString => false
  | String d r => Ascii.eqb d c || hasChar c r
  end.

End JsString.
Import JsString.


(* ================================================================= *)
(** ** Values, exceptions and the record types of [src/types] *)

#[local] Set Warnings "-register-all".

(** A value as [response.json()] or a test double may produce it. *)
Inductive JSValue : Type :=
| JUndefined
| JNull
| JBool (b : bool)
| JNum (x : float)
| JStr (s : string)
| JArr (items : list JSValue)
| JObj (fields : list (string * JSValue)).

(** What a [throw] carries: an [Error] with its message, or anything else. *)
Inductive Thrown : Type :=
| ErrorObj (message : string)
| NonError (v : JSValue).

(** [error instanceof Error ? error.message : fallback]. *)
Definition messageOr (fallback : string) (e : Thrown) : string :=
  match e with
  | ErrorObj m => m
  | NonError _ => fallback
  end.

(** ToBoolean. *)
Definition truthy (v : JSValue) : bool :=
  match v with
  | JUndefined | JNull => false
  | JBool b => b
  | JNum x => negb (PrimFloat.eqb x 0%float) && negb (PrimFloat.is_nan x)
  | JStr s => negb (isEmpty s)
  | JArr _ | JObj _ => true
  end.

Definition nullish (v : JSValue) : bool :=
  match v with
  | JUndefined | JNull => true
  | _ => false
  end.

(** [a ?? b]. *)
Definition coalesce (a b : JSValue) : JSValue := if nullish a then b else a.

(** The own property [k] of an object literal; the first binding counts. *)
Fixpoint lookup (k : string) (fields : list (string * JSValue)) : JSValue :=
  match fields with
  | [] => JUndefined
  | (k', v) :: r => if String.eqb k k' then v else lookup k r
  end.

Module File.
Record t : Type := mk { name : string; type : string; size : Z }.
End File.

Module LLMProvider.
Record t : Type := mk {
  id : string;
  name : string;
  baseUrl : string;
  requiresApiKey : bool;
  models : list string }.
End LLMProvider.

Module ConversionExample.
Record t : Type := mk {
  id : string;
  name : string;
  originalText : string;
  convertedMarkdown : string;
  pleadingType : string }.
End ConversionExample.

Module ConversionSettings.
Record t : Type := mk {
  provider : string;
  model : string;
  apiKey : string;
  temperature : float;
  maxTokens : float;
  useExamples : bool;
  selectedExamples : list string;
  customPrompt : string;
  customBaseUrl : option string;
  customModel : option string }.
End ConversionSettings.

(** The two arguments of [fetch(url, init)]; [body] is the object handed to
    [JSON.stringify]. *)
Module Request.
Record t : Type := mk {
  url : string;
  method : string;
  headers : list (string * string);
  body : JSValue }.
End Request.

(** What the code reads of a fetch [Response]; [json] and [text] are the
    outcomes of the methods of those names. *)
Module Response.
Record t : Type := mk {
  ok : bool;
  status : Z;
  statusText : string;
  json : Thrown + JSValue;
  text : Thrown + string }.
End Response.

(** The object [convertToMarkdown] resolves with; an absent field is
    [JUndefined] or [None]. *)
Module ConversionResult.
Record t : Type := mk {
  success : bool;
  markdown : JSValue;
  tokensUsed : JSValue;
  error : option string;
  processingTime : Z }.
End ConversionResult.

(** The object [processText] resolves with. *)
Module ProcessResult.
Record t : Type := mk {
  success : bool;
  content : JSValue;
  tokensUsed : JSValue;
  error : option string;
  processingTime : Z }.
End ProcessResult.

Definition ArrayBuffer : Type := list Byte.byte.

(** An entry of [textContent.items]; pdf.js also lists marked-content items,
    which have no [str]. *)
Record TextItem : Type := { str : JSValue }.

(** A pdf.js document: page [n] is entry [n - 1]; [inl] when [getPage] or
    [getTextContent] rejects for it. *)
Definition PdfDocument : Type := list (Thrown + list TextItem).

(** The effects one can observe from outside. *)
Inductive Event : Type :=
| EvReadAsText (file : File.t)
| EvReadAsArrayBuffer (file : File.t)
| EvExtractRawText (buffer : option ArrayBuffer)
| EvGetDocument (buffer : ArrayBuffer)
| EvGetPage (pageNum : nat)
| EvFetch (request : Request.t)
| EvWarn (message : string).

(** Everything the two modules call and do not define. *)
Record World : Type := {
  (** FileReader: [None] is the error event; for a buffer, [Some None] is a
      load event whose result is null. *)
  readAsText : File.t -> option string;
  readAsArrayBuffer : File.t -> option (option ArrayBuffer);
  (** [mammoth.extractRawText({arrayBuffer})], for [result.value]. *)
  extractRawText : option ArrayBuffer -> option string;
  (** [getDocument({data}).promise]. *)
  getDocument : ArrayBuffer -> Thrown + PdfDocument;
  fetch : Request.t -> Thrown + Response.t;
  (** The reading of the [n]-th call of [Date.now()] in an operation. *)
  dateNow : nat -> Z;
  (** The message of the TypeError that reading or calling property [k] of
      the value raises. *)
  typeErrorMessage : JSValue -> string -> string;
  (** ToString on a value that is no string, and [+] on operands that are
      not both numbers. *)
  jsToString : JSValue -> string;
  jsAdd : JSValue -> JSValue -> JSValue }.

(* ================================================================= *)
(** ** The monad of asynchronous computations *)

Definition M (A : Type) : Type := (list Event * (Thrown + A))%type.

Definition ret {A : Type} (a : A) : M A := ([], inr a).

Definition throw {A : Type} (e : Thrown) : M A := ([], inl e).

Definition bind {A B : Type} (m : M A) (k : A -> M B) : M B :=
  match m with
  | (l, inl e) => (l, inl e)
  | (l, inr a) => let (l', r) := k a in ((l ++ l')%list, r)
  end.

(** [try { m } catch (error) { handler }]. *)
Definition tryCatch {A : Type} (m : M A) (handler : Thrown -> M A) : M A :=
  match m with
  | (l, inl e) => let (l', r) := handler e in ((l ++ l')%list, r)
  | (l, inr a) => (l, inr a)
  end.

Definition emit (ev : Event) : M unit := ([ev], inr tt).

Definition lift {A : Type} (r : Thrown + A) : M A := ([], r).

Definition events {A : Type} (m : M A) : list Event := fst m.
Definition outcome {A : Type} (m : M A) : Thrown + A := snd m.

Declare Scope js_scope.
Delimit Scope js_scope with js.
Notation "x <- m ;; k" := (bind m (fun x => k))
  (at level 61, m at next level, right associativity) : js_scope.
Notation "m ;;; k" := (bind m (fun _ => k))
  (at level 61, right associativity) : js_scope.
Open Scope js_scope.

(** [v.k]: a TypeError on undefined and null; otherwise the own property of
    an object, and undefined for the property names used here on any other
    value. *)
Definition getProp (w : World) (v : JSValue) (k : string) : Thrown + JSValue :=
  match v with
  | JUndefined | JNull => inl (ErrorObj (typeErrorMessage w v k))
  | JObj fields => inr (lookup k fields)
  | _ => inr JUndefined
  end.

(** [v[0]]. *)
Definition getIndex0 (w : World) (v : JSValue) : Thrown + JSValue :=
  match v with
  | JUndefined | JNull => inl (ErrorObj (typeErrorMessage w v "0"))
  | JArr items => inr (hd JUndefined items)
  | JStr (String c _) => inr (JStr (String c EmptyString))
  | JObj fields => inr (lookup "0" fields)
  | _ => inr JUndefined
  end.

(** [v?.k]. *)
Definition getPropOpt (w : World) (v : JSValue) (k : string) : Thrown + JSValue :=
  if nullish v then inr JUndefined else getProp w v k.

(** The message of [new Error(v)] for a defined [v]. *)
Definition errorMessageOf (w : World) (v : JSValue) : string :=
  match v with
  | JStr s => s
  | _ => jsToString w v
  end.

(** [a + b]. *)
Definition plus (w : World) (a b : JSValue) : JSValue :=
  match a, b with
  | JNum x, JNum y => JNum (PrimFloat.add x y)
  | _, _ => jsAdd w a b
  end.

(* ================================================================= *)
(** ** [src/utils/llmProviders.ts] *)

Definition LLM_PROVIDERS : list LLMProvider.t :=
  [ LLMProvider.mk "local" "Local/Custom API" "http://localhost:11434/v1" false
      ["custom"];
    LLMProvider.mk "openai" "OpenAI" "https://api.openai.com/v1" true
      ["gpt-4o"; "gpt-4o-mini"; "gpt-4-turbo"; "gpt-3.5-turbo"];
    LLMProvider.mk "anthropic" "Anthropic Claude" "https://api.anthropic.com/v1" true
      ["claude-3-5-sonnet-20241022"; "claude-3-haiku-20240307"; "claude-3-opus-20240229"];
    LLMProvider.mk "groq" "Groq" "https://api.groq.com/openai/v1" true
      ["llama3-8b-8192"; "llama3-70b-8192"; "mixtral-8x7b-32768"; "gemma-7b-it"] ].

Module LLMService.

(** The separator line and the closing instruction of the custom branch of
    [buildPrompt]. *)
Definition customSeparator : string :=
  LF ++ LF ++ "Now convert this legal pleading:" ++ LF ++ LF.

Definition closingInstruction : string :=
  LF ++ LF ++ "Provide only the clean markdown conversion:".

(** The lines of the template literal that [prompt] starts from in the
    default branch, in order; the literal ends with the last, empty line. *)
Definition defaultTemplateLines : list string :=
  [ "You are an expert legal document processor specializing in Singapore civil litigation. Convert the following legal pleading to clean, well-structured markdown format.";
    "";
    "CRITICAL REQUIREMENTS:";
    "1. Preserve the document's legal structure and hierarchy";
    "2. Convert numbered paragraphs to proper markdown format";
    "3. Format case citations appropriately with proper emphasis";
    "4. Maintain legal formatting conventions (e.g., party names, case references)";
    "5. Ensure headers and sections are properly structured using markdown headers (# ## ###)";
    "6. Convert tables and lists to markdown format";
    "7. Preserve important legal numbering and cross-references";
    "8. Focus on the substantive legal content only";
    "";
    "FORMATTING GUIDELINES:";
    "- Use # for main document title";
    "- Use ## for major sections (e.g., " ++ DQ ++ "STATEMENT OF CLAIM" ++ DQ ++ ", "
      ++ DQ ++ "PRAYER FOR RELIEF" ++ DQ ++ ")";
    "- Use ### for subsections";
    "- Use numbered lists for legal paragraphs (1. 2. 3.)";
    "- Use **bold** for party names, case names, and important legal terms";
    "- Use *italics* for case citations and legal references";
    "- Use > for quoted text or legal provisions";
    "- Preserve the logical flow and legal reasoning structure";
    "";
    "" ].

Definition defaultTemplate : string := join LF defaultTemplateLines.

(** The body of [examples.forEach((example, index) => ...)], from [index]. *)
Fixpoint appendExamples (prompt : string) (index : nat)
    (examples : list ConversionExample.t) : string :=
  match examples with
  | [] => prompt
  | example :: rest =>
      let prompt1 := prompt ++ "Example " ++ ofInteger (Z.of_nat index + 1) ++ " ("
                       ++ ConversionExample.pleadingType example ++ "):" ++ LF in
      let prompt2 := prompt1 ++ "Original:" ++ LF
                       ++ ConversionExample.originalText example ++ LF ++ LF in
      let prompt3 := prompt2 ++ "Converted:" ++ LF
                       ++ ConversionExample.convertedMarkdown example ++ LF ++ LF in
      appendExamples prompt3 (S index) rest
  end.

(** [buildPrompt] past its first [if]: the default template, the examples
    block when there are examples, the text and the closing instruction. *)
Definition defaultPrompt (text : string) (examples : list ConversionExample.t) : string :=
  let prompt := defaultTemplate in
  let prompt :=
    if (0 <? List.length examples)%nat
    then appendExamples (prompt ++ LF ++ "Here are examples of good conversions:" ++ LF ++ LF)
           0 examples
    else prompt in
  prompt ++ LF ++ "Now convert this legal pleading:" ++ LF ++ LF ++ text
    ++ closingInstruction.

Definition buildPrompt (text : string) (examples : list ConversionExample.t)
    (customPrompt : option string) : string :=
  match customPrompt with
  | Some custom =>
      if negb (isEmpty custom) && negb (isEmpty (trim custom))
      then trim custom ++ customSeparator ++ text ++ closingInstruction
      else defaultPrompt text examples
  | None => defaultPrompt text examples
  end.

(** What each of the four [call...] functions resolves with. *)
Record Completion : Type := { content : JSValue; tokensUsed : JSValue }.

(** [await fetch(url, init)]. *)
Definition doFetch (w : World) (request : Request.t) : M Response.t :=
  emit (EvFetch request) ;;; lift (fetch w request).

(** [[{ role: 'user', content: prompt }]]. *)
Definition userMessages (prompt : string) : JSValue :=
  JArr [JObj [("role", JStr "user"); ("content", JStr prompt)]].

(** [a || b] for an optional string [a]. *)
Definition orElse (a : option string) (b : string) : string :=
  match a with
  | Some s => if isEmpty s then b else s
  | None => b
  end.

Definition callOpenAI (w : World) (prompt : string)
    (settings : ConversionSettings.t) (provider : LLMProvider.t) : M Completion :=
  if isEmpty (ConversionSettings.apiKey settings)
  then throw (ErrorObj "OpenAI API key is required")
  else
    response <- doFetch w
      (Request.mk (LLMProvider.baseUrl provider ++ "/chat/completions") "POST"
         [("Content-Type", "application/json");
          ("Authorization", "Bearer " ++ ConversionSettings.apiKey settings)]
         (JObj [("model", JStr (ConversionSettings.model settings));
                ("messages", userMessages prompt);
                ("temperature", JNum (ConversionSettings.temperature settings));
                ("max_tokens", JNum (ConversionSettings.maxTokens settings))])) ;;
    if negb (Response.ok response)
    then
      error <- lift (Response.json response) ;;
      inner <- lift (getProp w error "error") ;;
      message <- lift (getPropOpt w inner "message") ;;
      throw (ErrorObj (errorMessageOf w
               (if truthy message then message else JStr "OpenAI API request failed")))
    else
      data <- lift (Response.json response) ;;
      choices <- lift (getProp w data "choices") ;;
      choice <- lift (getIndex0 w choices) ;;
      message <- lift (getProp w choice "message") ;;
      content <- lift (getProp w message "content") ;;
      usage <- lift (getProp w data "usage") ;;
      total <- lift (getPropOpt w usage "total_tokens") ;;
      ret {| content := content; tokensUsed := coalesce total (JNum 0) |}.

Definition callAnthropic (w : World) (prompt : string)
    (settings : ConversionSettings.t) (provider : LLMProvider.t) : M Completion :=
  if isEmpty (ConversionSettings.apiKey settings)
  then throw (ErrorObj "Anthropic API key is required")
  else
    response <- doFetch w
      (Request.mk (LLMProvider.baseUrl provider ++ "/messages") "POST"
         [("Content-Type", "application/json");
          ("x-api-key", ConversionSettings.apiKey settings);
          ("anthropic-version", "2023-06-01")]
         (JObj [("model", JStr (ConversionSettings.model settings));
                ("messages", userMessages prompt);
                ("max_tokens", JNum (ConversionSettings.maxTokens settings));
                ("temperature", JNum (ConversionSettings.temperature settings))])) ;;
    if negb (Response.ok response)
    then
      error <- lift (Response.json response) ;;
      inner <- lift (getProp w error "error") ;;
      message <- lift (getPropOpt w inner "message") ;;
      throw (ErrorObj (errorMessageOf w
               (if truthy message then message else JStr "Anthropic API request failed")))
    else
      data <- lift (Response.json response) ;;
      blocks <- lift (getProp w data "content") ;;
      block <- lift (getIndex0 w blocks) ;;
      text <- lift (getProp w block "text") ;;
      usage <- lift (getProp w data "usage") ;;
      input <- lift (getPropOpt w usage "input_tokens") ;;
      output <- lift (getPropOpt w usage "output_tokens") ;;
      ret {| content := text;
             tokensUsed := plus w (coalesce input (JNum 0)) (coalesce output (JNum 0)) |}.

Definition callGroq (w : World) (prompt : string)
    (settings : ConversionSettings.t) (provider : LLMProvider.t) : M Completion :=
  if isEmpty (ConversionSettings.apiKey settings)
  then throw (ErrorObj "Groq API key is required")
  else
    response <- doFetch w
      (Request.mk (LLMProvider.baseUrl provider ++ "/chat/completions") "POST"
         [("Content-Type", "application/json");
          ("Authorization", "Bearer " ++ ConversionSettings.apiKey settings)]
         (JObj [("model", JStr (ConversionSettings.model settings));
                ("messages", userMessages prompt);
                ("temperature", JNum (ConversionSettings.temperature settings));
                ("max_tokens", JNum (ConversionSettings.maxTokens settings))])) ;;
    if negb (Response.ok response)
    then
      error <- lift (Response.json response) ;;
      inner <- lift (getProp w error "error") ;;
      message <- lift (getPropOpt w inner "message") ;;
      throw (ErrorObj (errorMessageOf w
               (if truthy message then message else JStr "Groq API request failed")))
    else
      data <- lift (Response.json response) ;;
      choices <- lift (getProp w data "choices") ;;
      choice <- lift (getIndex0 w choices) ;;
      message <- lift (getProp w choice "message") ;;
      content <- lift (getProp w message "content") ;;
      usage <- lift (getProp w data "usage") ;;
      total <- lift (getPropOpt w usage "total_tokens") ;;
      ret {| content := content; tokensUsed := coalesce total (JNum 0) |}.

Definition callCustomAPI (w : World) (prompt : string)
    (settings : ConversionSettings.t) (provider : LLMProvider.t) : M Completion :=
  let baseUrl := orElse (ConversionSettings.customBaseUrl settings)
                        (LLMProvider.baseUrl provider) in
  let model := orElse (ConversionSettings.customModel settings) "custom" in
  if isEmpty baseUrl
  then throw (ErrorObj "Custom base URL is required for local LLM")
  else
    response <- doFetch w
      (Request.mk (baseUrl ++ "/chat/completions") "POST"
         [("Content-Type", "application/json")]
         (JObj [("model", JStr model);
                ("messages", userMessages prompt);
                ("temperature", JNum (ConversionSettings.temperature settings));
                ("max_tokens", JNum (ConversionSettings.maxTokens settings))])) ;;
    if negb (Response.ok response)
    then
      errorText <- lift (Response.text response) ;;
      throw (ErrorObj ("Local API request failed: " ++ ofInteger (Response.status response)
                         ++ " " ++ Response.statusText response ++ ". " ++ errorText))
    else
      data <- lift (Response.json response) ;;
      choices <- lift (getProp w data "choices") ;;
      choice <- lift (getIndex0 w choices) ;;
      message <- lift (getProp w choice "message") ;;
      content <- lift (getProp w message "content") ;;
      usage <- lift (getProp w data "usage") ;;
      total <- lift (getPropOpt w usage "total_tokens") ;;
      ret {| content := content; tokensUsed := coalesce total (JNum 0) |}.

(** [LLM_PROVIDERS.find(p => p.id === id)]. *)
Definition findProvider (id : string) : option LLMProvider.t :=
  find (fun p => String.eqb (LLMProvider.id p) id) LLM_PROVIDERS.

Definition convertToMarkdown (w : World) (text : string)
    (settings : ConversionSettings.t) (examples : list ConversionExample.t)
    : M ConversionResult.t :=
  if isBlank text
  then ret (ConversionResult.mk false JUndefined JUndefined
              (Some "No text content provided for conversion") 0)
  else
    let startTime := dateNow w 0 in
    tryCatch
      (let prompt := buildPrompt text examples
                       (Some (ConversionSettings.customPrompt settings)) in
       match findProvider (ConversionSettings.provider settings) with
       | None => throw (ErrorObj ("Invalid LLM provider: "
                                    ++ ConversionSettings.provider settings))
       | Some provider =>
           response <-
             (if String.eqb (ConversionSettings.provider settings) "openai"
              then callOpenAI w prompt settings provider
              else if String.eqb (ConversionSettings.provider settings) "anthropic"
              then callAnthropic w prompt settings provider
              else if String.eqb (ConversionSettings.provider settings) "groq"
              then callGroq w prompt settings provider
              else callCustomAPI w prompt settings provider) ;;
           let processingTime := (dateNow w 1 - startTime)%Z in
           ret (ConversionResult.mk true (content response) (tokensUsed response)
                  None processingTime)
       end)
      (fun error =>
         ret (ConversionResult.mk false JUndefined JUndefined
                (Some (messageOr "Unknown error occurred" error))
                (dateNow w 1 - startTime)%Z)).

Definition processText (w : World) (prompt : string)
    (settings : ConversionSettings.t) : M ProcessResult.t :=
  if isBlank prompt
  then ret (ProcessResult.mk false JUndefined JUndefined
              (Some "No prompt provided for text processing") 0)
  else
    let startTime := dateNow w 0 in
    tryCatch
      (match findProvider (ConversionSettings.provider settings) with
       | None => throw (ErrorObj ("Invalid LLM provider: "
                                    ++ ConversionSettings.provider settings))
       | Some provider =>
           response <-
             (if String.eqb (ConversionSettings.provider settings) "openai"
              then callOpenAI w prompt settings provider
              else if String.eqb (ConversionSettings.provider settings) "anthropic"
              then callAnthropic w prompt settings provider
              else if String.eqb (ConversionSettings.provider settings) "groq"
              then callGroq w prompt settings provider
              else callCustomAPI w prompt settings provider) ;;
           let processingTime := (dateNow w 1 - startTime)%Z in
           ret (ProcessResult.mk true (content response) (tokensUsed response)
                  None processingTime)
       end)
      (fun error =>
         ret (ProcessResult.mk false JUndefined JUndefined
                (Some (messageOr "Unknown error occurred" error))
                (dateNow w 1 - startTime)%Z)).

End LLMService.

(* ================================================================= *)
(** ** [src/utils/fileProcessing.ts] *)

Module ExtractTextOptions.
Record t : Type := mk {
  maxFileSize : option Z;
  supportedTypes : option (list string);
  supportedExtensions : option (list string) }.
End ExtractTextOptions.

Definition DEFAULT_OPTIONS : ExtractTextOptions.t :=
  ExtractTextOptions.mk
    (Some (10 * 1024 * 1024)%Z)
    (Some ["text/plain";
           "application/vnd.openxmlformats-officedocument.wordprocessingml.document";
           "application/pdf"])
    (Some [".txt"; ".docx"; ".pdf"]).

Module FileProcessor.

Definition sizes : list string := ["Bytes"; "KB"; "MB"; "GB"].

(** [Math.floor(Math.log(bytes) / Math.log(k))] for an integer [bytes >= 1]
    and [k] a power of two, with the logarithms and the quotient read as
    exact real numbers: the floor of [log2 bytes / log2 k].  For [k = 1024]
    the doubles give the same index for the sizes below [1024 ^ 4], the
    range of the table of units and of every statement below; from there on
    the rounding of the quotient decides (an index of 5 at [2 ^ 50 - 1],
    where this reading gives 4), and nothing is stated. *)
Definition floorLog (k bytes : Z) : Z := (Z.log2 bytes / Z.log2 k)%Z.

(** [x.toFixed(2)] for [x = num / den], as the count of hundredths: the
    integer nearest to [100 * x], the larger one on a tie. *)
Definition toFixed2 (num den : Z) : Z := ((2 * 100 * num + den) / (2 * den))%Z.

(** [parseFloat(s) + ''] for the decimal [s] of [h] hundredths, [h >= 0]:
    trailing zeros of the fraction are dropped, and so is an empty fraction. *)
Definition hundredthsToString (h : Z) : string :=
  let whole := (h / 100)%Z in
  let frac := (h mod 100)%Z in
  if (frac =? 0)%Z then ofInteger whole
  else if (frac mod 10 =? 0)%Z then ofInteger whole ++ "." ++ ofInteger (frac / 10)
  else ofInteger whole ++ "." ++ ofInteger (frac / 10) ++ ofInteger (frac mod 10).

Definition formatFileSize (bytes : Z) : string :=
  if (bytes =? 0)%Z then "0 Bytes"
  else if (bytes <? 0)%Z then "Invalid size"
  else
    let k := 1024%Z in
    let i := floorLog k bytes in
    hundredthsToString (toFixed2 bytes (k ^ i)) ++ " "
      ++ nth (Z.to_nat i) sizes "undefined".

(** ['.' + file.name.split('.').pop()?.toLowerCase()]. *)
Definition fileExtension (file : File.t) : string :=
  "." ++ match pop (split dot (File.name file)) with
         | Some last => toLowerCase last
         | None => "undefined"
         end.

(** [list?.includes(x)], read as a condition. *)
Definition includesOpt (list : option (list string)) (x : string) : bool :=
  match list with
  | Some l => arrayIncludes l x
  | None => false
  end.

Definition validateFile (file : File.t) (options : ExtractTextOptions.t) : Thrown + unit :=
  let checkType :=
    let isValidType := includesOpt (ExtractTextOptions.supportedTypes options) (File.type file) in
    let isValidExtension :=
      includesOpt (ExtractTextOptions.supportedExtensions options) (fileExtension file) in
    if negb isValidType && negb isValidExtension
    then inl (ErrorObj "Please upload a TXT, DOCX, or PDF file")
    else inr tt in
  match ExtractTextOptions.maxFileSize options with
  | Some maxFileSize =>
      if negb (maxFileSize =? 0)%Z && (maxFileSize <? File.size file)%Z
      then inl (ErrorObj ("File size must be less than " ++ formatFileSize maxFileSize))
      else checkType
  | None => checkType
  end.

Definition extractTextFromTxt (w : World) (file : File.t) : M string :=
  emit (EvReadAsText file) ;;;
  match readAsText w file with
  | Some text => ret text
  | None => throw (ErrorObj "Failed to read text file")
  end.

Definition extractTextFromDocx (w : World) (file : File.t) : M string :=
  emit (EvReadAsArrayBuffer file) ;;;
  match readAsArrayBuffer w file with
  | Some arrayBuffer =>
      emit (EvExtractRawText arrayBuffer) ;;;
      match extractRawText w arrayBuffer with
      | Some value => ret value
      | None => throw (ErrorObj "Failed to extract text from DOCX file")
      end
  | None => throw (ErrorObj "Failed to read DOCX file")
  end.

(** The strings of the items that pass
    [item.str && typeof item.str === 'string']. *)
Fixpoint itemStrings (items : list TextItem) : list string :=
  match items with
  | [] => []
  | item :: rest =>
      match str item with
      | JStr s => if isEmpty s then itemStrings rest else s :: itemStrings rest
      | _ => itemStrings rest
      end
  end.

Definition pageTextOf (items : list TextItem) : string :=
  join " " (filter (fun s => (0 <? String.length s)%nat) (map trim (itemStrings items))).

(** The [for] loop over the pages, entered at [pageNum] with [fullText]. *)
Fixpoint pagesLoop (pages : PdfDocument) (pageNum : nat) (fullText : string) : M string :=
  match pages with
  | [] => ret fullText
  | page :: rest =>
      emit (EvGetPage pageNum) ;;;
      items <- lift page ;;
      let pageText := pageTextOf items in
      pagesLoop rest (S pageNum)
        (if isEmpty pageText then fullText else fullText ++ pageText ++ LF ++ LF)
  end.

Definition extractTextFromPdf (w : World) (file : File.t) : M string :=
  emit (EvReadAsArrayBuffer file) ;;;
  match readAsArrayBuffer w file with
  | Some result =>
      tryCatch
        (match result with
         | None => throw (ErrorObj "Failed to read file content")
         | Some arrayBuffer =>
             emit (EvGetDocument arrayBuffer) ;;;
             pdfDocument <- lift (getDocument w arrayBuffer) ;;
             fullText <- pagesLoop pdfDocument 1 EmptyString ;;
             let trimmedText := trim fullText in
             if isEmpty trimmedText
             then throw (ErrorObj "No readable text found in PDF. The PDF may not contain selectable text or may be image-based. Please ensure the PDF is OCRed and contains selectable text.")
             else ret trimmedText
         end)
        (fun error =>
           throw (ErrorObj ("Failed to extract text from PDF: "
                              ++ messageOr "Unknown error" error
                              ++ ". Please ensure the PDF contains selectable text.")))
  | None => throw (ErrorObj "Failed to read PDF file")
  end.

Definition cleaningPrompt (rawText : string) : string :=
  join LF
    [ "You are a document processing expert. Clean the following extracted PDF text by:";
      "";
      "1. Remove headers, footers, page numbers, and watermarks";
      "2. Remove repetitive formatting artifacts and OCR noise";
      "3. Fix broken words and sentences caused by PDF extraction";
      "4. Maintain the logical structure and flow of the legal document";
      "5. Preserve important legal content, case citations, and references";
      "6. Remove unnecessary whitespace and formatting characters";
      "7. Ensure paragraphs flow naturally";
      "8. Keep numbered sections and legal formatting intact";
      "9. Remove any gibberish or corrupted text fragments";
      "10. Ensure the text is coherent and readable";
      "";
      "IMPORTANT: Only return the cleaned text content. Do not add any explanations, comments, or markdown formatting.";
      "";
      "Raw extracted text:";
      rawText;
      "";
      "Cleaned text:" ].

Section WithProcessText.

(** [LLMService.processText], which the tests replace by a spy: the code
    of this file is read against any implementation of it. *)
Variable processText : string -> ConversionSettings.t -> M ProcessResult.t.

Definition cleanTextWithLLM (w : World) (rawText : string)
    (settings : ConversionSettings.t) : M string :=
  if isBlank rawText
  then throw (ErrorObj "No text content to clean")
  else
    tryCatch
      (result <- processText (cleaningPrompt rawText) settings ;;
       let fallBack :=
         emit (EvWarn "LLM text cleaning failed, using raw extracted text") ;;;
         ret rawText in
       if ProcessResult.success result
       then match ProcessResult.content result with
            | JUndefined | JNull => fallBack
            | JStr content =>
                if isEmpty (trim content) then fallBack else ret (trim content)
            | other => throw (ErrorObj (typeErrorMessage w other "trim"))
            end
       else fallBack)
      (fun error =>
         emit (EvWarn "LLM text cleaning error, using raw extracted text:") ;;;
         ret rawText).

Definition extractText (w : World) (file : File.t)
    (settings : option ConversionSettings.t) : M string :=
  lift (validateFile file DEFAULT_OPTIONS) ;;;
  let fileType := File.type file in
  let fileName := toLowerCase (File.name file) in
  tryCatch
    (if String.eqb fileType "text/plain" || endsWith fileName ".txt"
     then extractTextFromTxt w file
     else if String.eqb fileType
               "application/vnd.openxmlformats-officedocument.wordprocessingml.document"
             || endsWith fileName ".docx"
     then extractTextFromDocx w file
     else if String.eqb fileType "application/pdf" || endsWith fileName ".pdf"
     then match settings with
          | None => throw (ErrorObj "PDF processing requires LLM settings for text cleaning")
          | Some settings =>
              rawText <- extractTextFromPdf w file ;;
              cleanTextWithLLM w rawText settings
          end
     else throw (ErrorObj ("Unsupported file type: " ++ fileType)))
    (fun error =>
       throw (ErrorObj ("Failed to extract text: " ++ messageOr "Unknown error" error))).

End WithProcessText.

End FileProcessor.

(** The program as it runs: [FileProcessor.extractText] calling
    [LLMService.processText]. *)
Module Pipeline.
Definition extractText (w : World) (file : File.t)
    (settings : option ConversionSettings.t) : M string :=
  FileProcessor.extractText (LLMService.processText w) w file settings.
End Pipeline.

(* ================================================================= *)
(** ** The callers: [App.tsx] and the components *)

(** [DocumentInfo] of [src/types]. *)
Module DocumentInfo.
Record t : Type := mk {
  filename : string;
  size : Z;
  type : string;
  extractedText : string;
  convertedMarkdown : option string;
  processingTime : option Z }.
End DocumentInfo.

(** [src/App.tsx]: the state of the component and its handlers.  A handler
    is read from the state it closes over to the state once it has run to
    its end and its updates are applied. *)
Module App.

(** 0.1 is the double nearest to it. *)
Definition DEFAULT_SETTINGS : ConversionSettings.t :=
  ConversionSettings.mk "local" "llama2" EmptyString 0x1.999999999999ap-4%float 4000 false []
    EmptyString (Some "http://localhost:11434/v1") (Some "llama2").

Record State : Type := {
  document : option DocumentInfo.t;
  conversionResult : option ConversionResult.t;
  isConverting : bool;
  showSettings : bool;
  settings : ConversionSettings.t;
  examples : list ConversionExample.t }.

(** [settings.provider === 'local' || settings.apiKey.trim().length > 0]. *)
Definition isConfigured (settings : ConversionSettings.t) : bool :=
  String.eqb (ConversionSettings.provider settings) "local"
  || (0 <? String.length (trim (ConversionSettings.apiKey settings)))%nat.

Definition handleFileProcessed (st : State) (docInfo : DocumentInfo.t) : State :=
  {| document := Some docInfo;
     conversionResult := None;
     isConverting := isConverting st;
     showSettings := showSettings st;
     settings := settings st;
     examples := examples st |}.

(** The argument [selectedExampleData] of the call in [handleConvert]. *)
Definition selectedExampleData (settings : ConversionSettings.t)
    (examples : list ConversionExample.t) : list ConversionExample.t :=
  if ConversionSettings.useExamples settings
  then filter (fun ex => arrayIncludes (ConversionSettings.selectedExamples settings)
                           (ConversionExample.id ex)) examples
  else [].

Definition handleConvert (w : World) (st : State) : M State :=
  match document st with
  | Some doc =>
      if isConfigured (settings st)
      then
        result <-
          tryCatch
            (LLMService.convertToMarkdown w (DocumentInfo.extractedText doc) (settings st)
               (selectedExampleData (settings st) (examples st)))
            (fun error =>
               ret (ConversionResult.mk false JUndefined JUndefined
                      (Some (messageOr "Unknown error occurred" error)) 0)) ;;
        ret {| document := document st;
               conversionResult := Some result;
               isConverting := false;
               showSettings := showSettings st;
               settings := settings st;
               examples := examples st |}
      else
        ret {| document := document st;
               conversionResult := conversionResult st;
               isConverting := isConverting st;
               showSettings := true;
               settings := settings st;
               examples := examples st |}
  | None =>
      ret {| document := document st;
             conversionResult := conversionResult st;
             isConverting := isConverting st;
             showSettings := if isConfigured (settings st) then showSettings st else true;
             settings := settings st;
             examples := examples st |}
  end.

End App.

(** [src/components/FileUpload.tsx]. *)
Module FileUpload.

(** What [handleFiles] leaves behind: the [error] of the component's state,
    and the document it handed to [onFileProcessed], if it did. *)
Record Result : Type := {
  error : option string;
  processed : option DocumentInfo.t }.

(** [validateFileForPDF]: [None] when it returns true, the error it sets
    when it returns false. *)
Definition validateFileForPDF (settings : option ConversionSettings.t) (file : File.t)
    : option string :=
  let isPdf := String.eqb (File.type file) "application/pdf"
               || endsWith (toLowerCase (File.name file)) ".pdf" in
  match settings with
  | Some settings =>
      if isPdf
      then
        let isConfigured :=
          String.eqb (ConversionSettings.provider settings) "local"
          || (0 <? String.length (trim (ConversionSettings.apiKey settings)))%nat in
        if negb isConfigured
        then Some "PDF processing requires LLM configuration. Please configure your LLM provider in settings first."
        else None
      else None
  | None => None
  end.

Section WithProcessText.

Variable processText : string -> ConversionSettings.t -> M ProcessResult.t.

(** [handleFiles], entered with the [error] the state holds. *)
Definition handleFiles (w : World) (settings : option ConversionSettings.t)
    (error0 : option string) (files : list File.t) : M Result :=
  match files with
  | [] => ret {| error := error0; processed := None |}
  | file :: _ =>
      match validateFileForPDF settings file with
      | Some message => ret {| error := Some message; processed := None |}
      | None =>
          tryCatch
            (extractedText <- FileProcessor.extractText processText w file settings ;;
             let documentInfo :=
               DocumentInfo.mk (File.name file) (File.size file) (File.type file)
                 extractedText None None in
             ret {| error := None; processed := Some documentInfo |})
            (fun err =>
               ret {| error := Some (messageOr "Failed to process file" err);
                      processed := None |})
      end
  end.

End WithProcessText.

End FileUpload.

(** [src/components/ExamplesManager.tsx]: the handlers, from the props to
    the arguments of [onExamplesChange] and [onSelectionChange]. *)
Module ExamplesManager.

(** The form state [newExample]. *)
Record NewExample : Type := {
  name : string;
  originalText : string;
  convertedMarkdown : string;
  pleadingType : string }.

(** [handleAddExample] at clock reading [now]: the new list of examples. *)
Definition handleAddExample (now : Z) (examples : list ConversionExample.t)
    (newExample : NewExample) : list ConversionExample.t :=
  if isEmpty (name newExample) || isEmpty (originalText newExample)
     || isEmpty (convertedMarkdown newExample)
  then examples
  else
    let example :=
      ConversionExample.mk (ofInteger now) (name newExample) (originalText newExample)
        (convertedMarkdown newExample)
        (if isEmpty (pleadingType newExample) then "General" else pleadingType newExample) in
    (examples ++ [example])%list.

(** [handleDeleteExample]: the new examples and the new selection. *)
Definition handleDeleteExample (id : string) (examples : list ConversionExample.t)
    (selectedExamples : list string) : list ConversionExample.t * list string :=
  (filter (fun ex => negb (String.eqb (ConversionExample.id ex) id)) examples,
   filter (fun exId => negb (String.eqb exId id)) selectedExamples).

(** [handleSelectionChange]: the new selection. *)
Definition handleSelectionChange (id : string) (selected : bool)
    (selectedExamples : list string) : list string :=
  if selected
  then (selectedExamples ++ [id])%list
  else filter (fun exId => negb (String.eqb exId id)) selectedExamples.

End ExamplesManager.

(** [ConversionPreview]: the names of the downloads. *)
Module ConversionPreview.

(** A code unit of the class [[^/.]]. *)
Definition extensionChar (c : ascii) : bool :=
  negb (Ascii.eqb c (ascii_of_nat 47)) && negb (Ascii.eqb c dot).

(** The rest of the string is one or more code units of that class. *)
Fixpoint extensionTail (s : string) : bool :=
  match s with
  | EmptyString => false
  | String c EmptyString => extensionChar c
  | String c r => extensionChar c && extensionTail r
  end.

(** [s.replace(/\.[^/.]+$/, replacement)]: the first dot from the left that
    only an extension follows, to the end. *)
Fixpoint replaceExtension (s replacement : string) : string :=
  match s with
  | EmptyString => EmptyString
  | String c r =>
      if Ascii.eqb c dot && extensionTail r then replacement
      else String c (replaceExtension r replacement)
  end.

(** A code unit of the class [[a-zA-Z0-9\s\-_]]. *)
Definition keptChar (c : ascii) : bool :=
  let n := nat_of_ascii c in
  ((97 <=? n) && (n <=? 122) || (65 <=? n) && (n <=? 90) || (48 <=? n) && (n <=? 57))%nat
  || isWhiteSpace c || (n =? 45)%nat || (n =? 95)%nat.

(** [s.replace(/[^a-zA-Z0-9\s\-_]/g, '')]. *)
Fixpoint removeOthers (s : string) : string :=
  match s with
  | EmptyString => EmptyString
  | String c r => if keptChar c then String c (removeOthers r) else removeOthers r
  end.

(** [s.replace(/\s+/g, '_')]: one underscore for each run of white space;
    [inRun] tells that the code unit before was white space. *)
Fixpoint underscoreSpacesFrom (inRun : bool) (s : string) : string :=
  match s with
  | EmptyString => EmptyString
  | String c r =>
      if isWhiteSpace c
      then if inRun then underscoreSpacesFrom true r
           else String (ascii_of_nat 95) (underscoreSpacesFrom true r)
      else String c (underscoreSpacesFrom false r)
  end.

Definition underscoreSpaces (s : string) : string := underscoreSpacesFrom false s.

(** [generateMarkdownFilename]; [today] is
    [new Date().toISOString().slice(0, 10)]. *)
Definition generateMarkdownFilename (today originalFilename : string) : string :=
  let nameWithoutExt := replaceExtension originalFilename EmptyString in
  let cleanName := toLowerCase (underscoreSpaces (removeOthers nameWithoutExt)) in
  cleanName ++ "_converted_" ++ today ++ ".md".

(** The [filename] of [handleDownloadOriginal]. *)
Definition originalDownloadName (filename : string) : string :=
  replaceExtension filename "_original.txt".

End ConversionPreview.

(* ================================================================= *)
(** ** Vocabulary of the statements *)

(** The ceiling, the MIME types and the extensions of [DEFAULT_OPTIONS]. *)
Definition sizeCeiling : Z := 10485760.

Definition supportedMimeTypes : list string :=
  ["text/plain";
   "application/vnd.openxmlformats-officedocument.wordprocessingml.document";
   "application/pdf"].

Definition supportedDotExtensions : list string := [".txt"; ".docx"; ".pdf"].





(** The conditions of the three format branches of [extractText], which
    tests them in this order. *)
Definition isTxt (file : File.t) : bool :=
  String.eqb (File.type file) "text/plain"
  || endsWith (toLowerCase (File.name file)) ".txt".

Definition isDocx (file : File.t) : bool :=
  String.eqb (File.type file)
    "application/vnd.openxmlformats-officedocument.wordprocessingml.document"
  || endsWith (toLowerCase (File.name file)) ".docx".

Definition isPdf (file : File.t) : bool :=
  String.eqb (File.type file) "application/pdf"
  || endsWith (toLowerCase (File.name file)) ".pdf".

(** The file reaches the PDF branch: the two branches before it do not
    claim it. *)
Definition reachesPdfBranch (file : File.t) : bool :=
  negb (isTxt file) && negb (isDocx file) && isPdf file.

(** A computation that performs no effect. *)
Definition silent {A : Type} (m : M A) : Prop := events m = [].


(** The time between the two clock readings of an operation. *)
Definition elapsed (w : World) : Z := (dateNow w 1 - dateNow w 0)%Z.

(** The failure results of the two entry points of [LLMService]. *)
Definition conversionFailure (message : string) (time : Z) : ConversionResult.t :=
  ConversionResult.mk false JUndefined JUndefined (Some message) time.

Definition processFailure (message : string) (time : Z) : ProcessResult.t :=
  ProcessResult.mk false JUndefined JUndefined (Some message) time.

(** Every code unit is white space; the empty string included. *)
Fixpoint allWhiteSpace (s : string) : bool :=
  match s with
  | EmptyString => true
  | String c r => isWhiteSpace c && allWhiteSpace r
  end.

(** The call that both entry points of [LLMService] select by the provider
    identifier of the settings. *)
Definition dispatch (w : World) (prompt : string) (settings : ConversionSettings.t)
    (provider : LLMProvider.t) : M LLMService.Completion :=
  if String.eqb (ConversionSettings.provider settings) "openai"
  then LLMService.callOpenAI w prompt settings provider
  else if String.eqb (ConversionSettings.provider settings) "anthropic"
  then LLMService.callAnthropic w prompt settings provider
  else if String.eqb (ConversionSettings.provider settings) "groq"
  then LLMService.callGroq w prompt settings provider
  else LLMService.callCustomAPI w prompt settings provider.

(** The hosted providers, with the name each uses in its messages. *)
Definition hostedProviders : list (string * string) :=
  [("openai", "OpenAI"); ("anthropic", "Anthropic"); ("groq", "Groq")].

(** The settings name a provider of the registry and carry what its branch
    asks for before it sends the request: an API key for the three hosted
    providers, a base URL for the local one. *)
Definition configured (settings : ConversionSettings.t) : bool :=
  match LLMService.findProvider (ConversionSettings.provider settings) with
  | None => false
  | Some provider =>
      if arrayIncludes ["openai"; "anthropic"; "groq"] (ConversionSettings.provider settings)
      then negb (isEmpty (ConversionSettings.apiKey settings))
      else negb (isEmpty (LLMService.orElse (ConversionSettings.customBaseUrl settings)
                            (LLMProvider.baseUrl provider)))
  end.

(** The effects are one request at most, and nothing else. *)
Definition atMostOneRequest {A : Type} (m : M A) : Prop :=
  events m = [] \/ exists request, events m = [EvFetch request].

(** The value of the header [name] of a request, and the field [k] of the
    object that is its body. *)
Fixpoint headerOf (name : string) (headers : list (string * string)) : option string :=
  match headers with
  | [] => None
  | (n, v) :: r => if String.eqb name n then Some v else headerOf name r
  end.

Definition bodyField (k : string) (request : Request.t) : JSValue :=
  match Request.body request with
  | JObj fields => lookup k fields
  | _ => JUndefined
  end.

(** What [callOpenAI], [callGroq] and [callCustomAPI] read of the body of a
    2xx answer. *)
Definition chatCompletion (w : World) (data : JSValue) : M LLMService.Completion :=
  choices <- lift (getProp w data "choices") ;;
  choice <- lift (getIndex0 w choices) ;;
  message <- lift (getProp w choice "message") ;;
  content <- lift (getProp w message "content") ;;
  usage <- lift (getProp w data "usage") ;;
  total <- lift (getPropOpt w usage "total_tokens") ;;
  ret {| LLMService.content := content;
         LLMService.tokensUsed := coalesce total (JNum 0) |}.

(** The text that the [forEach] of [buildPrompt] adds for the example at
    [index], and for a list of examples from [index] on. *)
Definition exampleBlock (index : nat) (example : ConversionExample.t) : string :=
  ("Example " ++ ofInteger (Z.of_nat index + 1) ++ " ("
     ++ ConversionExample.pleadingType example ++ "):" ++ LF)
  ++ ("Original:" ++ LF ++ ConversionExample.originalText example ++ LF ++ LF)
  ++ ("Converted:" ++ LF ++ ConversionExample.convertedMarkdown example ++ LF ++ LF).

Fixpoint exampleBlocks (index : nat) (examples : list ConversionExample.t) : string :=
  match examples with
  | [] => EmptyString
  | example :: rest => exampleBlock index example ++ exampleBlocks (S index) rest
  end.

(** The examples section of the default prompt. *)
Definition examplesSection (examples : list ConversionExample.t) : string :=
  match examples with
  | [] => EmptyString
  | _ => LF ++ "Here are examples of good conversions:" ++ LF ++ LF
           ++ exampleBlocks 0 examples
  end.

(** What the pages of a document add to [fullText]: the text of each page
    that has some, followed by a blank line. *)
Fixpoint pagesText (pages : list (list TextItem)) : string :=
  match pages with
  | [] => EmptyString
  | items :: rest =>
      (if isEmpty (FileProcessor.pageTextOf items) then EmptyString
       else FileProcessor.pageTextOf items ++ LF ++ LF)
      ++ pagesText rest
  end.

(** An item of [textContent.items] that the filters of the PDF extractor
    drop: its [str] is no string, or is empty or blank. *)
Definition droppedItem (item : TextItem) : bool :=
  match str item with
  | JStr s => isBlank s
  | _ => true
  end.

(** Every code unit of a string passes a test. *)
Fixpoint forallChars (p : ascii -> bool) (s : string) : bool :=
  match s with
  | EmptyString => true
  | String c r => p c && forallChars p r
  end.

(** A lower-case letter, a digit, a hyphen or an underscore. *)
Definition fileNameChar (c : ascii) : bool :=
  let n := nat_of_ascii c in
  ((97 <=? n) && (n <=? 122) || (48 <=? n) && (n <=? 57) || (n =? 45) || (n =? 95))%nat.

(** Every selected identifier is the identifier of an example. *)
Definition selectionWithinExamples (examples : list ConversionExample.t)
    (selectedExamples : list string) : Prop :=
  forall id, In id selectedExamples -> In id (map ConversionExample.id examples).

(* ================================================================= *)
(** ** Sample inputs, for the examples below *)

Module Sample.

(** A world where every read succeeds, the one page of the document holds
    three fragments, and the provider answers 200 with a completion. *)
Definition completionBody : JSValue :=
  JObj [("choices", JArr [JObj [("message", JObj [("content", JStr "# X")])]]);
        ("usage", JObj [("total_tokens", JNum 150)])].

Definition world : World := {|
  readAsText := fun _ => Some "plain text of the file";
  readAsArrayBuffer := fun _ => Some (Some []);
  extractRawText := fun _ => Some "text of the docx";
  getDocument := fun _ =>
    inr [inr [ {| str := JStr "mock" |}; {| str := JStr " pdf " |};
               {| str := JUndefined |}; {| str := JStr "content" |} ]];
  fetch := fun _ => inr (Response.mk true 200 "OK" (inr completionBody) (inr EmptyString));
  dateNow := fun n => (1000 + 250 * Z.of_nat n)%Z;
  typeErrorMessage := fun _ k => "Cannot read properties of undefined (reading '" ++ k ++ "')";
  jsToString := fun _ => "[object Object]";
  jsAdd := fun _ _ => JUndefined |}.

(** The same world with the network down. *)
Definition offline : World := {|
  readAsText := readAsText world;
  readAsArrayBuffer := readAsArrayBuffer world;
  extractRawText := extractRawText world;
  getDocument := getDocument world;
  fetch := fun _ => inl (ErrorObj "Network error");
  dateNow := dateNow world;
  typeErrorMessage := typeErrorMessage world;
  jsToString := jsToString world;
  jsAdd := jsAdd world |}.

Definition openai : ConversionSettings.t :=
  ConversionSettings.mk "openai" "gpt-4" "test-key" 0.5 4000 false [] EmptyString None None.

Definition local : ConversionSettings.t :=
  ConversionSettings.mk "local" "custom" EmptyString 0.5 4000 false [] EmptyString
    (Some "http://localhost:11434/v1") (Some "llama2").

Definition example1 : ConversionExample.t :=
  ConversionExample.mk "1" "Test Example" "Original legal text" "# Legal Document"
    "Statement of Claim".

Definition pdf : File.t := File.mk "test.pdf" "application/pdf" 11.

(** A text file that the browser labels as a PDF. *)
Definition mislabelled : File.t := File.mk "notes.txt" "application/pdf" 11.

(** A file whose whole name is an extension word. *)
Definition bare : File.t := File.mk "pdf" "application/octet-stream" 11.

(** A file of a type that is not supported, and one byte over the ceiling. *)
Definition spreadsheet : File.t := File.mk "test.xyz" "application/unknown" 11.
Definition oversize : File.t := File.mk "big.txt" "text/plain" 10485761.

(** A world whose provider answers without [usage]. *)
Definition terse : World := {|
  readAsText := readAsText world;
  readAsArrayBuffer := readAsArrayBuffer world;
  extractRawText := extractRawText world;
  getDocument := getDocument world;
  fetch := fun _ =>
    inr (Response.mk true 200 "OK"
           (inr (JObj [("choices",
                        JArr [JObj [("message", JObj [("content", JStr "Local response")])]])]))
           (inr EmptyString));
  dateNow := dateNow world;
  typeErrorMessage := typeErrorMessage world;
  jsToString := jsToString world;
  jsAdd := jsAdd world |}.

(** The descriptor of the registry for the local provider. *)
Definition localProvider : LLMProvider.t :=
  LLMProvider.mk "local" "Local/Custom API" "http://localhost:11434/v1" false ["custom"].

(** The descriptor of the registry for OpenAI. *)
Definition openaiProvider : LLMProvider.t :=
  LLMProvider.mk "openai" "OpenAI" "https://api.openai.com/v1" true
    ["gpt-4o"; "gpt-4o-mini"; "gpt-4-turbo"; "gpt-3.5-turbo"].

(** The sample world with another answer of the network. *)
Definition answering (response : Response.t) : World := {|
  readAsText := readAsText world;
  readAsArrayBuffer := readAsArrayBuffer world;
  extractRawText := extractRawText world;
  getDocument := getDocument world;
  fetch := fun _ => inr response;
  dateNow := dateNow world;
  typeErrorMessage := typeErrorMessage world;
  jsToString := jsToString world;
  jsAdd := jsAdd world |}.

(** A refusal, as the providers word it. *)
Definition refusal : Response.t :=
  Response.mk false 401 "Unauthorized"
    (inr (JObj [("error", JObj [("message", JStr "API key invalid")])]))
    (inr "denied").

(** A completion with an empty list of choices. *)
Definition noChoices : Response.t :=
  Response.mk true 200 "OK" (inr (JObj [("choices", JArr [])])) (inr EmptyString).

(** An answer of the messages API. *)
Definition messagesAnswer : Response.t :=
  Response.mk true 200 "OK"
    (inr (JObj [("content", JArr [JObj [("type", JStr "text"); ("text", JStr "# X")]]);
                ("usage", JObj [("input_tokens", JNum 10); ("output_tokens", JNum 5)])]))
    (inr EmptyString).

Definition anthropic : ConversionSettings.t :=
  ConversionSettings.mk "anthropic" "claude-3-haiku-20240307" "test-key" 0.5 4000 false []
    EmptyString None None.

(** The sample world with another document behind every buffer. *)
Definition holding (document : PdfDocument) : World := {|
  readAsText := readAsText world;
  readAsArrayBuffer := readAsArrayBuffer world;
  extractRawText := extractRawText world;
  getDocument := fun _ => inr document;
  fetch := fetch world;
  dateNow := dateNow world;
  typeErrorMessage := typeErrorMessage world;
  jsToString := jsToString world;
  jsAdd := jsAdd world |}.

(** The pages of a scanned document: items without text. *)
Definition scannedPages : list (list TextItem) :=
  [[ {| str := JStr "  " |}; {| str := JUndefined |} ]; []].

(** A document whose second page fails to load. *)
Definition brokenDocument : PdfDocument :=
  [inr [ {| str := JStr "first" |} ]; inl (ErrorObj "page is damaged"); inr []].

Definition note : File.t := File.mk "notes.txt" "text/plain" 11.



(** Settings of a hosted provider without a key, and settings that select
    the sample example. *)
Definition keyless : ConversionSettings.t :=
  ConversionSettings.mk "openai" "gpt-4" EmptyString 0.5 4000 false [] EmptyString None None.

Definition selecting : ConversionSettings.t :=
  ConversionSettings.mk "openai" "gpt-4" "test-key" 0.5 4000 true ["1"] EmptyString None None.

(** The application with a document loaded and nothing converted yet. *)
Definition loaded : App.State := {|
  App.document :=
    Some (DocumentInfo.mk "notes.txt" 11 "text/plain" "plain text of the file" None None);
  App.conversionResult := None;
  App.isConverting := false;
  App.showSettings := false;
  App.settings := selecting;
  App.examples := [example1] |}.
Definition brief : File.t :=
  File.mk "brief.docx"
    "application/vnd.openxmlformats-officedocument.wordprocessingml.document" 11.

End Sample.

(* ================================================================= *)
(** ** Facts about the string primitives *)

Section StringFacts.

Lemma append_assoc (a b c : string) : (a ++ b) ++ c = a ++ b ++ c.
Proof. induction a as [|x a IH]; simpl; [reflexivity | now rewrite IH]. Qed.

Lemma append_nil_r (a : string) : a ++ EmptyString = a.
Proof. induction a as [|x a IH]; simpl; [reflexivity | now rewrite IH]. Qed.

Lemma isEmpty_false (s : string) : isEmpty s = false <-> s <> EmptyString.
Proof. destruct s; simpl; split; congruence. Qed.

(** *** [trim] *)

Lemma trimEnd_nonws (c : ascii) (r : string) :
  isWhiteSpace c = false -> trimEnd (String c r) = String c (trimEnd r).
Proof. intros H. simpl. rewrite H. now destruct (trimEnd r). Qed.

Lemma trimEnd_idem (s : string) : trimEnd (trimEnd s) = trimEnd s.
Proof.
  induction s as [|c r IH]; [reflexivity|].
  simpl. destruct (trimEnd r) as [|d r'] eqn:E.
  - destruct (isWhiteSpace c) eqn:W; [reflexivity|]. simpl. now rewrite W.
  - change (trimEnd (String c (String d r')) = String c (String d r')).
    cbn [trimEnd]. cbn [trimEnd] in IH. now rewrite IH.
Qed.

Lemma trimStart_head (s : string) :
  match trimStart s with
  | EmptyString => True
  | String c _ => isWhiteSpace c = false
  end.
Proof.
  induction s as [|c r IH]; [exact I|].
  simpl. destruct (isWhiteSpace c) eqn:W; [exact IH | exact W].
Qed.

Lemma trim_idem (s : string) : trim (trim s) = trim s.
Proof.
  unfold trim. pose proof (trimStart_head s) as H.
  destruct (trimStart s) as [|c r]; [reflexivity|].
  rewrite (trimEnd_nonws c r H). simpl. rewrite H.
  rewrite (trimEnd_nonws c _ H). now rewrite trimEnd_idem.
Qed.

Lemma isBlank_trim (s : string) : isBlank s = isEmpty (trim s).
Proof. destruct s; reflexivity. Qed.

(** *** [endsWith], [hasChar], [toLowerCase], [split] *)

Lemma endsWith_spec (s suffix : string) :
  endsWith s suffix = true <-> exists p, s = p ++ suffix.
Proof.
  induction s as [|c r IH]; cbn [endsWith].
  - rewrite orb_false_r, String.eqb_eq. split.
    + intros <-. now exists EmptyString.
    + intros [[|x p] H]; simpl in H; [assumption | discriminate].
  - rewrite orb_true_iff, String.eqb_eq, IH. split.
    + intros [<- | [p ->]]; [now exists EmptyString | now exists (String c p)].
    + intros [[|x p] H]; simpl in H; [now left | right].
      injection H as -> ->. now exists p.
Qed.

Lemma hasChar_app (c : ascii) (a b : string) :
  hasChar c (a ++ b) = hasChar c a || hasChar c b.
Proof.
  induction a as [|x a IH]; simpl; [reflexivity|].
  now rewrite IH, orb_assoc.
Qed.

Lemma endsWith_hasChar (c : ascii) (s suffix : string) :
  hasChar c suffix = true -> hasChar c s = false -> endsWith s suffix = false.
Proof.
  intros Hs Hn. destruct (endsWith s suffix) eqn:E; [|reflexivity].
  apply endsWith_spec in E as [p ->].
  rewrite hasChar_app, Hs, orb_true_r in Hn. discriminate.
Qed.

Lemma lowerChar_dot (c : ascii) : Ascii.eqb (lowerChar c) dot = Ascii.eqb c dot.
Proof. destruct c as [[] [] [] [] [] [] [] []]; reflexivity. Qed.

Lemma toLowerCase_hasChar_dot (s : string) :
  hasChar dot (toLowerCase s) = hasChar dot s.
Proof.
  induction s as [|c r IH]; simpl; [reflexivity|].
  now rewrite lowerChar_dot, IH.
Qed.

Lemma split_without_separator (sep : ascii) (s : string) :
  hasChar sep s = false -> split sep s = [s].
Proof.
  induction s as [|c r IH]; simpl; [reflexivity|].
  intros H. apply orb_false_iff in H as [Hc Hr].
  now rewrite Hc, (IH Hr).
Qed.

Lemma arrayIncludes_In (l : list string) (x : string) :
  arrayIncludes l x = true <-> In x l.
Proof.
  unfold arrayIncludes. rewrite existsb_exists. split.
  - intros [y [Hy E]]. apply String.eqb_eq in E. now subst.
  - intros H. exists x. split; [assumption | apply String.eqb_refl].
Qed.

(** *** The last segment of a name *)







End StringFacts.

(* ================================================================= *)
(** ** The file validator *)

Section Validator.

Import FileProcessor.

Lemma formatFileSize_ceiling : formatFileSize (10 * 1024 * 1024) = "10 MB".
Proof. vm_compute. reflexivity. Qed.

(** [validateFile] under the default options, as one decision. *)
Lemma validateFile_default (file : File.t) :
  validateFile file DEFAULT_OPTIONS =
  if (sizeCeiling <? File.size file)%Z
  then inl (ErrorObj "File size must be less than 10 MB")
  else if negb (arrayIncludes supportedMimeTypes (File.type file))
          && negb (arrayIncludes supportedDotExtensions (fileExtension file))
  then inl (ErrorObj "Please upload a TXT, DOCX, or PDF file")
  else inr tt.
Proof.
  unfold validateFile, DEFAULT_OPTIONS, includesOpt.
  cbn [ExtractTextOptions.maxFileSize ExtractTextOptions.supportedTypes
       ExtractTextOptions.supportedExtensions].
  rewrite formatFileSize_ceiling.
  change (10 * 1024 * 1024)%Z with sizeCeiling.
  change (negb (sizeCeiling =? 0)%Z) with true.
  reflexivity.
Qed.




End Validator.

(* ================================================================= *)
(** ** Laws of the monad *)

Section MonadLaws.

Context {A B : Type}.

Lemma bind_ret (a : A) (k : A -> M B) : bind (ret a) k = k a.
Proof. unfold bind, ret. destruct (k a) as [l r]. reflexivity. Qed.

Lemma bind_lift_inr (a : A) (k : A -> M B) : bind (lift (inr a)) k = k a.
Proof. exact (bind_ret a k). Qed.

Lemma bind_lift_inl (e : Thrown) (k : A -> M B) : bind (lift (inl e)) k = ([], inl e).
Proof. reflexivity. Qed.

Lemma bind_throw (e : Thrown) (k : A -> M B) : bind (throw e) k = throw e.
Proof. reflexivity. Qed.

Lemma tryCatch_throw (e : Thrown) (h : Thrown -> M A) : tryCatch (throw e) h = h e.
Proof. unfold tryCatch, throw. destruct (h e) as [l r]. reflexivity. Qed.

Lemma tryCatch_ret (a : A) (h : Thrown -> M A) : tryCatch (ret a) h = ret a.
Proof. reflexivity. Qed.

(** What a sequence and a [try] resolve with or throw, from their parts. *)
Lemma outcome_bind (m : M A) (k : A -> M B) :
  outcome (bind m k) =
  match outcome m with
  | inl e => inl e
  | inr a => outcome (k a)
  end.
Proof.
  destruct m as [l [e | a]]; [reflexivity|].
  unfold bind, outcome. cbn. destruct (k a) as [l' r]. reflexivity.
Qed.

Lemma outcome_tryCatch (m : M A) (h : Thrown -> M A) :
  outcome (tryCatch m h) =
  match outcome m with
  | inl e => outcome (h e)
  | inr a => inr a
  end.
Proof.
  destruct m as [l [e | a]]; [|reflexivity].
  unfold tryCatch, outcome. cbn. destruct (h e) as [l' r]. reflexivity.
Qed.

Lemma events_bind (m : M A) (k : A -> M B) :
  events (bind m k) =
  match outcome m with
  | inl _ => events m
  | inr a => (events m ++ events (k a))%list
  end.
Proof.
  destruct m as [l [e | a]]; [reflexivity|].
  unfold bind, events, outcome. cbn. destruct (k a) as [l' r]. reflexivity.
Qed.

Lemma events_tryCatch (m : M A) (h : Thrown -> M A) :
  events (tryCatch m h) =
  match outcome m with
  | inl e => (events m ++ events (h e))%list
  | inr _ => events m
  end.
Proof.
  destruct m as [l [e | a]]; [|reflexivity].
  unfold tryCatch, events, outcome. cbn. destruct (h e) as [l' r]. reflexivity.
Qed.

End MonadLaws.

(* ================================================================= *)
(** ** The extraction orchestrator *)

Section Orchestrator.

Import FileProcessor.

Variable processText : string -> ConversionSettings.t -> M ProcessResult.t.
Variable w : World.

Lemma dotted_suffix_needs_dot (name suffix : string) :
  hasChar dot suffix = true ->
  hasChar dot name = false ->
  endsWith (toLowerCase name) suffix = false.
Proof.
  intros Hs Hn. apply (endsWith_hasChar dot); [assumption|].
  now rewrite toLowerCase_hasChar_dot.
Qed.

Lemma not_supported_type (type : string) :
  ~ In type supportedMimeTypes ->
  String.eqb type "text/plain" = false
  /\ String.eqb type
       "application/vnd.openxmlformats-officedocument.wordprocessingml.document" = false
  /\ String.eqb type "application/pdf" = false.
Proof.
  intros H. repeat split; apply String.eqb_neq; intros ->; apply H; simpl; tauto.
Qed.

(** C9. For a file whose name holds no dot the validator takes the
    extension to be a dot and the whole lower-cased name, so a file of
    admissible size named pdf, txt or docx (in any letter case) passes
    validation whatever its MIME type; the dispatch of [extractText] asks the
    name to end in [.txt], [.docx] or [.pdf], so when the MIME type is not a
    supported one the file is then rejected with the wrapped message
    [Unsupported file type], before any effect. *)
Theorem dotless_name_validates_then_unsupported
    (file : File.t) (settings : option ConversionSettings.t) :
  hasChar dot (File.name file) = false ->
  fileExtension file = "." ++ toLowerCase (File.name file)
  /\ ((File.size file <= sizeCeiling)%Z ->
      In (toLowerCase (File.name file)) ["pdf"; "txt"; "docx"] ->
      validateFile file DEFAULT_OPTIONS = inr tt)
  /\ (validateFile file DEFAULT_OPTIONS = inr tt ->
      ~ In (File.type file) supportedMimeTypes ->
      FileProcessor.extractText processText w file settings
      = ([], inl (ErrorObj ("Failed to extract text: Unsupported file type: "
                              ++ File.type file)))).
Proof.
  intros Hdot.
  assert (Hext : fileExtension file = "." ++ toLowerCase (File.name file)).
  { unfold fileExtension. now rewrite (split_without_separator dot _ Hdot). }
  split; [exact Hext | split].
  - intros Hsize Hname.
    rewrite validateFile_default.
    apply Z.ltb_ge in Hsize. rewrite Hsize, Hext.
    destruct Hname as [<- | [<- | [<- | []]]];
      cbn [arrayIncludes supportedDotExtensions existsb];
      change (String.eqb ?x ?x) with true;
      now rewrite andb_false_r.
  - intros Hvalid Htype.
    destruct (not_supported_type _ Htype) as (Ht & Hd & Hp).
    unfold FileProcessor.extractText.
    rewrite Hvalid, bind_lift_inr, Ht, Hd, Hp.
    rewrite !dotted_suffix_needs_dot by (reflexivity || assumption).
    cbn [orb]. now rewrite tryCatch_throw.
Qed.

(** C1, as the code has it. A file that passes validation and reaches the
    PDF branch (its MIME type is [application/pdf] or its lower-cased name
    ends in [.pdf], and neither the plain-text nor the DOCX branch claims it)
    is rejected, when no settings are given, with the message of the thrown
    error wrapped by the orchestrator's handler; nothing of the file is
    read, so the content plays no part. *)
Theorem pdf_without_settings_rejects (file : File.t) :
  validateFile file DEFAULT_OPTIONS = inr tt ->
  reachesPdfBranch file = true ->
  FileProcessor.extractText processText w file None
  = ([], inl (ErrorObj
       "Failed to extract text: PDF processing requires LLM settings for text cleaning")).
Proof.
  intros Hvalid Hpdf.
  unfold reachesPdfBranch in Hpdf.
  apply andb_true_iff in Hpdf as [Hpdf Hp].
  apply andb_true_iff in Hpdf as [Ht Hd].
  apply negb_true_iff in Ht, Hd.
  unfold isTxt in Ht. unfold isDocx in Hd. unfold isPdf in Hp.
  unfold FileProcessor.extractText.
  rewrite Hvalid, bind_lift_inr, Ht, Hd, Hp.
  now rewrite tryCatch_throw.
Qed.

(** *** The PDF path with settings *)

(** When [extractTextFromPdf] resolves, the text is trimmed and not empty. *)
Lemma extractTextFromPdf_resolves_trimmed (file : File.t) (raw : string) :
  outcome (extractTextFromPdf w file) = inr raw ->
  raw <> EmptyString /\ trim raw = raw.
Proof.
  unfold extractTextFromPdf. rewrite outcome_bind. cbn [emit outcome snd].
  destruct (readAsArrayBuffer w file) as [result|]; [|discriminate].
  rewrite outcome_tryCatch.
  destruct result as [arrayBuffer|]; [|discriminate].
  rewrite outcome_bind. cbn [emit outcome snd].
  rewrite outcome_bind. cbn [lift outcome snd].
  destruct (getDocument w arrayBuffer) as [e | pdfDocument]; [discriminate|].
  rewrite outcome_bind.
  destruct (outcome (pagesLoop pdfDocument 1 EmptyString)) as [e | fullText];
    [discriminate|].
  destruct (isEmpty (trim fullText)) eqn:E; [discriminate|].
  cbn [ret outcome snd]. intros H. injection H as <-.
  split; [now apply isEmpty_false | apply trim_idem].
Qed.

(** What [cleanTextWithLLM] resolves with, for a text that is not blank:
    it never throws. *)
Lemma cleanTextWithLLM_outcome (rawText : string) (settings : ConversionSettings.t) :
  isBlank rawText = false ->
  outcome (cleanTextWithLLM processText w rawText settings) =
  inr match outcome (processText (cleaningPrompt rawText) settings) with
      | inl _ => rawText
      | inr result =>
          if ProcessResult.success result
          then match ProcessResult.content result with
               | JStr content => if isEmpty (trim content) then rawText else trim content
               | _ => rawText
               end
          else rawText
      end.
Proof.
  intros Hblank. unfold cleanTextWithLLM. rewrite Hblank.
  rewrite outcome_tryCatch, outcome_bind.
  destruct (outcome (processText (cleaningPrompt rawText) settings)) as [e | result];
    [reflexivity|].
  destruct (ProcessResult.success result); [|reflexivity].
  destruct (ProcessResult.content result) as [ | | b | x | content | items | fields];
    try reflexivity.
  now destruct (isEmpty (trim content)).
Qed.

(** On the PDF branch with settings, [extractText] resolves with what the
    cleaning step resolves with. *)
Lemma extractText_pdf_outcome (file : File.t) (settings : ConversionSettings.t)
    (raw : string) :
  validateFile file DEFAULT_OPTIONS = inr tt ->
  reachesPdfBranch file = true ->
  outcome (extractTextFromPdf w file) = inr raw ->
  outcome (FileProcessor.extractText processText w file (Some settings))
  = outcome (cleanTextWithLLM processText w raw settings).
Proof.
  intros Hvalid Hpdf Hraw.
  assert (Hblank : isBlank raw = false).
  { destruct (extractTextFromPdf_resolves_trimmed file raw Hraw) as [Hne Htrim].
    rewrite isBlank_trim, Htrim. now apply isEmpty_false. }
  unfold reachesPdfBranch in Hpdf.
  apply andb_true_iff in Hpdf as [Hpdf Hp].
  apply andb_true_iff in Hpdf as [Ht Hd].
  apply negb_true_iff in Ht, Hd.
  unfold isTxt in Ht. unfold isDocx in Hd. unfold isPdf in Hp.
  unfold FileProcessor.extractText.
  rewrite Hvalid, bind_lift_inr, Ht, Hd, Hp.
  rewrite outcome_tryCatch, outcome_bind, Hraw.
  now rewrite (cleanTextWithLLM_outcome raw settings Hblank).
Qed.

(** C2. For a file on the PDF branch whose raw extraction succeeds (the
    text is then not empty), [extractText] with settings resolves: with the
    raw text unchanged when [processText] throws, reports failure, or
    succeeds with content that is absent, not a string, or empty after
    trimming; and with the trimmed content when [processText] succeeds with
    content that is not empty after trimming. *)
Theorem cleaning_falls_back_to_raw_text (file : File.t)
    (settings : ConversionSettings.t) (raw : string) :
  validateFile file DEFAULT_OPTIONS = inr tt ->
  reachesPdfBranch file = true ->
  outcome (extractTextFromPdf w file) = inr raw ->
  let cleaning := outcome (processText (cleaningPrompt raw) settings) in
  let result := outcome (FileProcessor.extractText processText w file (Some settings)) in
  raw <> EmptyString
  /\ (forall e, cleaning = inl e -> result = inr raw)
  /\ (forall r, cleaning = inr r -> ProcessResult.success r = false -> result = inr raw)
  /\ (forall r, cleaning = inr r -> ProcessResult.success r = true ->
       (forall content, ProcessResult.content r <> JStr content) -> result = inr raw)
  /\ (forall r content, cleaning = inr r -> ProcessResult.success r = true ->
       ProcessResult.content r = JStr content -> trim content = EmptyString ->
       result = inr raw)
  /\ (forall r content, cleaning = inr r -> ProcessResult.success r = true ->
       ProcessResult.content r = JStr content -> trim content <> EmptyString ->
       result = inr (trim content)).
Proof.
  intros Hvalid Hpdf Hraw cleaning result.
  destruct (extractTextFromPdf_resolves_trimmed file raw Hraw) as [Hne Htrim].
  assert (Hblank : isBlank raw = false).
  { rewrite isBlank_trim, Htrim. now apply isEmpty_false. }
  assert (Hres : result = outcome (cleanTextWithLLM processText w raw settings)).
  { exact (extractText_pdf_outcome file settings raw Hvalid Hpdf Hraw). }
  rewrite (cleanTextWithLLM_outcome raw settings Hblank) in Hres.
  fold cleaning in Hres.
  split; [exact Hne|].
  split; [|split; [|split; [|split]]].
  - intros e Hc. now rewrite Hres, Hc.
  - intros r Hc Hs. now rewrite Hres, Hc, Hs.
  - intros r Hc Hs Hn. rewrite Hres, Hc, Hs.
    destruct (ProcessResult.content r) as [ | | b | x | content | items | fields];
      try reflexivity.
    now destruct (Hn content).
  - intros r content Hc Hs Hcontent Hempty.
    rewrite Hres, Hc, Hs, Hcontent, Hempty. reflexivity.
  - intros r content Hc Hs Hcontent Hfull.
    rewrite Hres, Hc, Hs, Hcontent.
    apply isEmpty_false in Hfull. now rewrite Hfull.
Qed.

End Orchestrator.

(* ================================================================= *)
(** ** [formatFileSize] *)

Section FormatFileSize.

Import FileProcessor.
Open Scope Z_scope.

Lemma endsWith_append (p s : string) : endsWith (p ++ s) s = true.
Proof. apply endsWith_spec. now exists p. Qed.

(** The unit index is the exponent of the largest power of 1024 that does
    not exceed the size. *)
Lemma floorLog_between (bytes i : Z) :
  0 <= i -> 1024 ^ i <= bytes < 1024 ^ (i + 1) -> floorLog 1024 bytes = i.
Proof.
  intros Hi [Hlo Hhi].
  assert (Hpos : 0 < bytes).
  { assert (0 < 1024 ^ i) by (apply Z.pow_pos_nonneg; lia). lia. }
  change 1024 with (2 ^ 10) in Hlo, Hhi.
  rewrite <- Z.pow_mul_r in Hlo, Hhi by lia.
  apply Z.log2_le_pow2 in Hlo; [|assumption].
  apply Z.log2_lt_pow2 in Hhi; [|assumption].
  unfold floorLog. change (Z.log2 1024) with 10.
  symmetry. apply (Z.div_unique _ _ _ (Z.log2 bytes - 10 * i)); lia.
Qed.

Lemma formatFileSize_positive (bytes i : Z) :
  0 <= i -> 1024 ^ i <= bytes < 1024 ^ (i + 1) ->
  formatFileSize bytes
  = hundredthsToString (toFixed2 bytes (1024 ^ i)) ++ " "
      ++ nth (Z.to_nat i) sizes "undefined".
Proof.
  intros Hi Hb.
  assert (Hpos : 0 < bytes).
  { assert (0 < 1024 ^ i) by (apply Z.pow_pos_nonneg; lia). lia. }
  unfold formatFileSize.
  destruct (Z.eqb_spec bytes 0) as [-> | _]; [lia|].
  destruct (Z.ltb_spec bytes 0) as [Hneg | _]; [lia|].
  cbv zeta. now rewrite (floorLog_between bytes i Hi Hb).
Qed.


End FormatFileSize.

(* ================================================================= *)
(** ** The LLM client *)

Section Silence.

Context {A B : Type}.

Lemma silent_ret (a : A) : silent (ret a).
Proof. reflexivity. Qed.

Lemma silent_throw (e : Thrown) : silent (@throw A e).
Proof. reflexivity. Qed.

Lemma silent_lift (r : Thrown + A) : silent (lift r).
Proof. reflexivity. Qed.

Lemma silent_bind (m : M A) (k : A -> M B) :
  silent m -> (forall a, silent (k a)) -> silent (bind m k).
Proof.
  unfold silent. intros Hm Hk. rewrite events_bind, Hm.
  destruct (outcome m) as [e | a]; [reflexivity | apply Hk].
Qed.

Lemma silent_if (b : bool) (m1 m2 : M A) :
  silent m1 -> silent m2 -> silent (if b then m1 else m2).
Proof. now destruct b. Qed.



End Silence.

Create HintDb silence.
#[local] Hint Resolve silent_ret silent_throw silent_lift silent_bind silent_if : silence.

Section Client.

Import LLMService.

Variable w : World.

(** One request, and nothing else, is what [doFetch] and what follows it in
    each of the four branches perform. *)
Lemma events_after_fetch {A : Type} (request : Request.t) (k : Response.t -> M A) :
  (forall response, silent (k response)) ->
  events (bind (doFetch w request) k) = [EvFetch request].
Proof.
  intros Hk. rewrite events_bind. unfold doFetch.
  rewrite outcome_bind, events_bind. cbn [emit lift outcome events fst snd app].
  destruct (fetch w request) as [e | response]; [reflexivity|].
  now rewrite (Hk response).
Qed.

Lemma outcome_doFetch (request : Request.t) :
  outcome (doFetch w request) = fetch w request.
Proof. unfold doFetch. now rewrite outcome_bind. Qed.

Lemma orElse_nonempty (a : option string) (b : string) :
  b <> EmptyString -> orElse a b <> EmptyString.
Proof.
  intros Hb. unfold orElse. destruct a as [s|]; [|assumption].
  destruct (isEmpty s) eqn:E; [assumption | now apply isEmpty_false].
Qed.

(** C7. In the local branch, when the custom base URL or else the
    provider's is empty, the call throws the base-URL error without any
    request; otherwise it performs exactly one request: a POST to that base
    URL followed by [/chat/completions], whose only header is the content
    type (so none is named Authorization), and whose body has for [model]
    the custom model or else [custom]. *)
Theorem callCustomAPI_request (prompt : string)
    (settings : ConversionSettings.t) (provider : LLMProvider.t) :
  let baseUrl := orElse (ConversionSettings.customBaseUrl settings)
                        (LLMProvider.baseUrl provider) in
  let model := orElse (ConversionSettings.customModel settings) "custom" in
  (baseUrl = EmptyString ->
   callCustomAPI w prompt settings provider
   = ([], inl (ErrorObj "Custom base URL is required for local LLM")))
  /\ (baseUrl <> EmptyString ->
      exists request fields,
        events (callCustomAPI w prompt settings provider) = [EvFetch request]
        /\ Request.url request = baseUrl ++ "/chat/completions"
        /\ Request.method request = "POST"
        /\ Request.headers request = [("Content-Type", "application/json")]
        /\ (forall name value,
              In (name, value) (Request.headers request) -> name <> "Authorization")
        /\ Request.body request = JObj fields
        /\ lookup "model" fields = JStr model).
Proof.
  intros baseUrl model. unfold callCustomAPI. fold baseUrl. fold model.
  split.
  - intros ->. reflexivity.
  - intros Hne. apply isEmpty_false in Hne. rewrite Hne.
    eexists. eexists.
    split.
    { apply events_after_fetch. intros response.
      apply silent_if; auto 20 with silence. }
    cbn [Request.url Request.method Request.headers Request.body].
    repeat (split; [reflexivity|]).
    split; [|split; reflexivity].
    intros name value [H | []]. injection H as <- _. discriminate.
Qed.

(** C10. Every descriptor of the registry has a base URL that is not
    empty; so for settings whose provider identifier resolves in the
    registry the base URL that [callCustomAPI] computes is never empty, and
    the call always gets past its guard to send the request. *)
Theorem registry_base_url_never_empty :
  Forall (fun p => LLMProvider.baseUrl p <> EmptyString) LLM_PROVIDERS
  /\ forall (prompt : string) (settings : ConversionSettings.t) (provider : LLMProvider.t),
       findProvider (ConversionSettings.provider settings) = Some provider ->
       orElse (ConversionSettings.customBaseUrl settings) (LLMProvider.baseUrl provider)
         <> EmptyString
       /\ exists request,
            events (callCustomAPI w prompt settings provider) = [EvFetch request].
Proof.
  assert (Hall : Forall (fun p => LLMProvider.baseUrl p <> EmptyString) LLM_PROVIDERS).
  { repeat constructor; discriminate. }
  split; [exact Hall|].
  intros prompt settings provider Hfind.
  apply find_some in Hfind as [Hin _].
  assert (Hbase : LLMProvider.baseUrl provider <> EmptyString).
  { now apply (proj1 (Forall_forall _ _) Hall). }
  pose proof (orElse_nonempty (ConversionSettings.customBaseUrl settings) _ Hbase) as Hne.
  split; [exact Hne|].
  unfold callCustomAPI. apply isEmpty_false in Hne. rewrite Hne.
  eexists. apply events_after_fetch. intros response.
  apply silent_if; auto 20 with silence.
Qed.

(** *** The two entry points *)

Lemma trimStart_allWhiteSpace (s : string) :
  isEmpty (trimStart s) = allWhiteSpace s.
Proof.
  induction s as [|c r IH]; [reflexivity|].
  simpl. now destruct (isWhiteSpace c).
Qed.

(** The guard of both entry points holds exactly for the strings that are
    empty or made of white space only. *)
Lemma isBlank_allWhiteSpace (s : string) : isBlank s = allWhiteSpace s.
Proof.
  rewrite isBlank_trim. unfold trim.
  rewrite <- trimStart_allWhiteSpace.
  pose proof (trimStart_head s) as Hhead.
  destruct (trimStart s) as [|c r]; [reflexivity|].
  rewrite (trimEnd_nonws c r Hhead). reflexivity.
Qed.

(** What [convertToMarkdown] resolves with on a text that is not blank. *)
Lemma convertToMarkdown_outcome (text : string) (settings : ConversionSettings.t)
    (examples : list ConversionExample.t) :
  isBlank text = false ->
  outcome (convertToMarkdown w text settings examples) =
  inr match findProvider (ConversionSettings.provider settings) with
      | None =>
          conversionFailure
            ("Invalid LLM provider: " ++ ConversionSettings.provider settings) (elapsed w)
      | Some provider =>
          match outcome (dispatch w
                           (buildPrompt text examples
                              (Some (ConversionSettings.customPrompt settings)))
                           settings provider) with
          | inl e => conversionFailure (messageOr "Unknown error occurred" e) (elapsed w)
          | inr response =>
              ConversionResult.mk true (content response) (tokensUsed response) None
                (elapsed w)
          end
      end.
Proof.
  intros Hblank. unfold convertToMarkdown. rewrite Hblank. cbv zeta.
  rewrite outcome_tryCatch.
  destruct (findProvider (ConversionSettings.provider settings)) as [provider|];
    [|reflexivity].
  rewrite outcome_bind. fold (dispatch w
    (buildPrompt text examples (Some (ConversionSettings.customPrompt settings)))
    settings provider).
  now destruct (outcome (dispatch w _ settings provider)).
Qed.





(** The body of a 200 answer of an OpenAI-compatible endpoint, read by
    [callOpenAI]. *)
Lemma callOpenAI_completion (prompt : string) (settings : ConversionSettings.t)
    (provider : LLMProvider.t) (response : Response.t)
    (fields choice message : list (string * JSValue)) (others : list JSValue) :
  ConversionSettings.apiKey settings <> EmptyString ->
  (forall request,
     Request.url request = LLMProvider.baseUrl provider ++ "/chat/completions" ->
     fetch w request = inr response) ->
  Response.ok response = true ->
  Response.json response = inr (JObj fields) ->
  lookup "choices" fields = JArr (JObj choice :: others) ->
  lookup "message" choice = JObj message ->
  outcome (callOpenAI w prompt settings provider)
  = inr {| content := lookup "content" message;
           tokensUsed :=
             match lookup "usage" fields with
             | JObj usage => coalesce (lookup "total_tokens" usage) (JNum 0)
             | _ => JNum 0
             end |}.
Proof.
  intros Hkey Hfetch Hok Hjson Hchoices Hmessage.
  apply isEmpty_false in Hkey.
  unfold callOpenAI. rewrite Hkey.
  rewrite outcome_bind, outcome_doFetch, Hfetch by reflexivity.
  rewrite Hok. cbn [negb].
  rewrite Hjson, bind_lift_inr.
  cbn [getProp]. rewrite Hchoices, bind_lift_inr.
  cbn [getIndex0 hd]. rewrite bind_lift_inr.
  cbn [getProp]. rewrite Hmessage, bind_lift_inr.
  cbn [getProp]. rewrite bind_lift_inr, bind_lift_inr.
  unfold getPropOpt.
  destruct (lookup "usage" fields) as [ | | b | x | s | items | usage];
    cbn [nullish getProp]; rewrite bind_lift_inr; reflexivity.
Qed.

(** C4. With provider [openai] and an API key that is not empty, when the
    endpoint answers a text that is not blank with a 200 whose JSON body has
    [choices[0].message.content = content], [convertToMarkdown] resolves
    with success, that content as markdown, and as [tokensUsed] the
    [usage.total_tokens] of the body, or 0 when the body has no [usage]. *)
Theorem convertToMarkdown_openai_success (text : string)
    (settings : ConversionSettings.t) (examples : list ConversionExample.t)
    (response : Response.t) (fields choice message : list (string * JSValue))
    (others : list JSValue) (content : JSValue) :
  isBlank text = false ->
  ConversionSettings.provider settings = "openai" ->
  ConversionSettings.apiKey settings <> EmptyString ->
  (forall request,
     Request.url request = "https://api.openai.com/v1/chat/completions" ->
     fetch w request = inr response) ->
  Response.ok response = true ->
  Response.status response = 200%Z ->
  Response.json response = inr (JObj fields) ->
  lookup "choices" fields = JArr (JObj choice :: others) ->
  lookup "message" choice = JObj message ->
  lookup "content" message = content ->
  (forall usage tokens,
     lookup "usage" fields = JObj usage ->
     lookup "total_tokens" usage = tokens ->
     nullish tokens = false ->
     outcome (convertToMarkdown w text settings examples)
     = inr (ConversionResult.mk true content tokens None (elapsed w)))
  /\ (lookup "usage" fields = JUndefined ->
      outcome (convertToMarkdown w text settings examples)
      = inr (ConversionResult.mk true content (JNum 0) None (elapsed w))).
Proof.
  intros Hblank Hprovider Hkey Hfetch Hok _ Hjson Hchoices Hmessage Hcontent.
  rewrite (convertToMarkdown_outcome text settings examples Hblank).
  unfold dispatch. rewrite Hprovider.
  pose (provider := LLMProvider.mk "openai" "OpenAI" "https://api.openai.com/v1" true
                      ["gpt-4o"; "gpt-4o-mini"; "gpt-4-turbo"; "gpt-3.5-turbo"]).
  change (findProvider "openai") with (Some provider).
  change (String.eqb "openai" "openai") with true. cbv iota.
  rewrite (callOpenAI_completion _ settings provider response fields choice message
             others Hkey Hfetch Hok Hjson Hchoices Hmessage).
  cbn [LLMService.content LLMService.tokensUsed]. rewrite Hcontent.
  split.
  - intros usage tokens Husage Htokens Hnullish.
    rewrite Husage, Htokens. unfold coalesce. now rewrite Hnullish.
  - intros Husage. now rewrite Husage.
Qed.



End Client.

(* ================================================================= *)
(** ** The prompt builder *)

Section PromptBuilder.

Import LLMService.

Lemma startsWith_spec (s m : string) :
  startsWith s m = true <-> exists b, s = m ++ b.
Proof.
  revert s. induction m as [|c m IH]; intros s.
  - simpl. split; [intros _; now exists s | reflexivity].
  - destruct s as [|d s]; simpl.
    + split; [discriminate | intros [b H]; discriminate].
    + destruct (Ascii.eqb_spec c d) as [<- | Hne]; cbn [andb].
      * rewrite IH. split; intros [b H]; exists b; congruence.
      * split; [discriminate | intros [b H]; congruence].
Qed.

Lemma includes_spec (s m : string) :
  includes s m = true <-> exists a b, s = a ++ m ++ b.
Proof.
  induction s as [|c s IH]; cbn [includes]; rewrite orb_true_iff, startsWith_spec.
  - split.
    + intros [[b H] | H]; [now exists EmptyString, b | discriminate].
    + intros [[|x a] [b H]]; [left; now exists b | discriminate].
  - rewrite IH. split.
    + intros [[b H] | [a [b H]]]; [now exists EmptyString, b|].
      exists (String c a), b. simpl. now rewrite H.
    + intros [[|x a] [b H]]; [left; now exists b | right].
      simpl in H. injection H as _ H. now exists a, b.
Qed.

Lemma includes_nil (m : string) : includes EmptyString m = true -> m = EmptyString.
Proof.
  intros H. apply includes_spec in H as [a [b H]].
  destruct a; [|discriminate]. destruct m; [reflexivity | discriminate].
Qed.

(** Two ways of cutting one string share a middle part. *)
Lemma append_eq_append (a b c d : string) :
  a ++ b = c ++ d ->
  exists l, (a = c ++ l /\ d = l ++ b) \/ (c = a ++ l /\ b = l ++ d).
Proof.
  revert c. induction a as [|x a IH]; intros c H.
  - exists c. right. now split.
  - destruct c as [|y c].
    + exists (String x a). left. now split.
    + simpl in H. injection H as <- H.
      destruct (IH c H) as [l [[-> ->] | [-> ->]]]; exists l; [left | right]; now split.
Qed.

(** A string without the character [nl] that occurs in [x ++ nl ++ y]
    occurs in [x] or in [y]. *)
Lemma includes_across (nl : ascii) (x y m : string) :
  hasChar nl m = false ->
  includes (x ++ String nl y) m = true ->
  includes x m = true \/ includes y m = true.
Proof.
  intros Hm H. apply includes_spec in H as [a [b H]].
  destruct (append_eq_append _ _ _ _ H) as [l [[Hx Hr] | [Ha Hr]]].
  - (* the cut of [x] falls at or after the start of [m] *)
    symmetry in Hr. destruct (append_eq_append _ _ _ _ Hr) as [l' [[Hl Hb] | [Hm' Hy]]].
    + left. apply includes_spec. exists a, l'. now rewrite Hx, Hl.
    + destruct l' as [|c l'].
      * left. apply includes_spec. exists a, EmptyString.
        rewrite append_nil_r in Hm'. rewrite append_nil_r. now rewrite Hx, Hm'.
      * simpl in Hy. injection Hy as <- _.
        rewrite Hm', hasChar_app in Hm. simpl in Hm.
        rewrite Ascii.eqb_refl, orb_true_r in Hm. discriminate.
  - destruct l as [|c l].
    + destruct m as [|c m].
      * left. apply includes_spec. exists x, EmptyString. now rewrite append_nil_r.
      * simpl in Hr. injection Hr as <- _.
        simpl in Hm. rewrite Ascii.eqb_refl in Hm. discriminate.
    + simpl in Hr. injection Hr as _ ->.
      right. apply includes_spec. now exists l, b.
Qed.

(** What the custom branch of [buildPrompt] returns holds a line-free,
    non-empty string only if the instruction, the text, or one of the two
    fixed lines holds it. *)
Lemma custom_prompt_includes (custom text m : string) :
  m <> EmptyString ->
  hasChar newline m = false ->
  includes (custom ++ customSeparator ++ text ++ closingInstruction) m = true ->
  includes custom m = true
  \/ includes "Now convert this legal pleading:" m = true
  \/ includes text m = true
  \/ includes "Provide only the clean markdown conversion:" m = true.
Proof.
  intros Hne Hm H.
  change (includes
            (custom ++ String newline (EmptyString ++ String newline
               ("Now convert this legal pleading:" ++ String newline
                  (EmptyString ++ String newline
                     (text ++ String newline (EmptyString ++ String newline
                        "Provide only the clean markdown conversion:")))))) m = true) in H.
  apply (includes_across newline _ _ m Hm) in H as [H | H]; [now left|].
  apply (includes_across newline _ _ m Hm) in H as [H | H];
    [now apply includes_nil in H|].
  apply (includes_across newline _ _ m Hm) in H as [H | H]; [now right; left|].
  apply (includes_across newline _ _ m Hm) in H as [H | H];
    [now apply includes_nil in H|].
  apply (includes_across newline _ _ m Hm) in H as [H | H]; [now right; right; left|].
  apply (includes_across newline _ _ m Hm) in H as [H | H];
    [now apply includes_nil in H|].
  now right; right; right.
Qed.

(** No line of the default template holds a line feed or occurs in one of
    the two fixed lines of the custom branch. *)
Lemma template_lines_apart :
  forallb (fun line =>
             negb (hasChar newline line)
             && negb (includes "Now convert this legal pleading:" line)
             && negb (includes "Provide only the clean markdown conversion:" line))
          (filter (fun line => negb (isEmpty line)) defaultTemplateLines) = true.
Proof. vm_compute. reflexivity. Qed.

(** C6, as the code has it. With a custom instruction that is not empty
    after trimming, the prompt is the trimmed instruction, the separator
    line, the text and the closing instruction, whatever the text and the
    examples; and a non-empty line of the default template occurs in it only
    if the trimmed instruction or the text holds that line. *)
Theorem custom_prompt_replaces_template (text : string)
    (examples : list ConversionExample.t) (custom : string) :
  trim custom <> EmptyString ->
  buildPrompt text examples (Some custom)
  = trim custom ++ customSeparator ++ text ++ closingInstruction
  /\ forall line,
       In line defaultTemplateLines -> line <> EmptyString ->
       includes (trim custom) line = false ->
       includes text line = false ->
       includes (buildPrompt text examples (Some custom)) line = false.
Proof.
  intros Htrim.
  assert (Hbuild : buildPrompt text examples (Some custom)
                   = trim custom ++ customSeparator ++ text ++ closingInstruction).
  { unfold buildPrompt.
    assert (Hc : isEmpty custom = false).
    { destruct custom; [now destruct Htrim | reflexivity]. }
    apply isEmpty_false in Htrim. now rewrite Hc, Htrim. }
  split; [exact Hbuild|].
  intros line Hin Hne Hcustom Htext. rewrite Hbuild.
  pose proof template_lines_apart as Hall.
  rewrite forallb_forall in Hall.
  assert (Hline : In line (filter (fun line => negb (isEmpty line)) defaultTemplateLines)).
  { apply filter_In. split; [assumption|]. apply negb_true_iff. now apply isEmpty_false. }
  specialize (Hall line Hline).
  apply andb_true_iff in Hall as [Hall Hclosing].
  apply andb_true_iff in Hall as [Hnl Hsep].
  apply negb_true_iff in Hnl, Hsep, Hclosing.
  destruct (includes (trim custom ++ customSeparator ++ text ++ closingInstruction) line)
    eqn:E; [|reflexivity].
  destruct (custom_prompt_includes (trim custom) text line Hne Hnl E)
    as [H | [H | [H | H]]]; congruence.
Qed.

End PromptBuilder.

(* ================================================================= *)
(** ** The theorems at concrete inputs *)

Section Instances.

Import FileProcessor LLMService.



Lemma pdf_without_settings_rejects_witness :
  validateFile Sample.pdf DEFAULT_OPTIONS = inr tt
  /\ reachesPdfBranch Sample.pdf = true
  /\ Pipeline.extractText Sample.world Sample.pdf None
     = ([], inl (ErrorObj
          "Failed to extract text: PDF processing requires LLM settings for text cleaning")).
Proof.
  split; [vm_compute; reflexivity | split; [vm_compute; reflexivity|]].
  apply (pdf_without_settings_rejects (processText Sample.world) Sample.world Sample.pdf);
    vm_compute; reflexivity.
Defined.

(** C1 as stated fails twice.  A file that validation accepts and whose
    MIME type is [application/pdf] is taken by the plain-text branch when
    its name ends in [.txt]: without settings [extractText] reads it and
    resolves.  And on the PDF branch the rejection carries the message
    behind the prefix of the orchestrator's handler, not the bare message. *)
Lemma pdf_without_settings_counterexample :
  (File.type Sample.mislabelled = "application/pdf"
   /\ validateFile Sample.mislabelled DEFAULT_OPTIONS = inr tt
   /\ Pipeline.extractText Sample.world Sample.mislabelled None
      = ([EvReadAsText Sample.mislabelled], inr "plain text of the file"))
  /\ (File.type Sample.pdf = "application/pdf"
      /\ validateFile Sample.pdf DEFAULT_OPTIONS = inr tt
      /\ exists message,
           outcome (Pipeline.extractText Sample.world Sample.pdf None)
           = inl (ErrorObj message)
           /\ String.eqb message "PDF processing requires LLM settings for text cleaning"
              = false).
Proof.
  split.
  - repeat split; vm_compute; reflexivity.
  - split; [reflexivity | split; [vm_compute; reflexivity|]].
    eexists. split; vm_compute; reflexivity.
Qed.

Lemma cleaning_falls_back_to_raw_text_witness :
  validateFile Sample.pdf DEFAULT_OPTIONS = inr tt
  /\ reachesPdfBranch Sample.pdf = true
  /\ outcome (extractTextFromPdf Sample.offline Sample.pdf) = inr "mock pdf content"
  /\ outcome (Pipeline.extractText Sample.offline Sample.pdf (Some Sample.openai))
     = inr "mock pdf content"
  /\ outcome (Pipeline.extractText Sample.world Sample.pdf (Some Sample.openai))
     = inr "# X".
Proof.
  assert (Hvalid : validateFile Sample.pdf DEFAULT_OPTIONS = inr tt)
    by (vm_compute; reflexivity).
  assert (Hpdf : reachesPdfBranch Sample.pdf = true) by (vm_compute; reflexivity).
  assert (Hoff : outcome (extractTextFromPdf Sample.offline Sample.pdf)
                 = inr "mock pdf content") by (vm_compute; reflexivity).
  assert (Hon : outcome (extractTextFromPdf Sample.world Sample.pdf)
                = inr "mock pdf content") by (vm_compute; reflexivity).
  split; [exact Hvalid | split; [exact Hpdf | split; [exact Hoff | split]]].
  - destruct (cleaning_falls_back_to_raw_text (processText Sample.offline) Sample.offline
                Sample.pdf Sample.openai _ Hvalid Hpdf Hoff) as (_ & _ & Hfail & _).
    apply (Hfail (processFailure "Network error" 250)); vm_compute; reflexivity.
  - destruct (cleaning_falls_back_to_raw_text (processText Sample.world) Sample.world
                Sample.pdf Sample.openai _ Hvalid Hpdf Hon) as (_ & _ & _ & _ & _ & Hok).
    apply (Hok (ProcessResult.mk true (JStr "# X") (JNum 150) None 250) "# X");
      vm_compute; (reflexivity || discriminate).
Defined.


Lemma dotless_name_validates_then_unsupported_witness :
  hasChar dot (File.name Sample.bare) = false
  /\ fileExtension Sample.bare = ".pdf"
  /\ validateFile Sample.bare DEFAULT_OPTIONS = inr tt
  /\ Pipeline.extractText Sample.world Sample.bare (Some Sample.openai)
     = ([], inl (ErrorObj
          "Failed to extract text: Unsupported file type: application/octet-stream")).
Proof.
  assert (Hdot : hasChar dot (File.name Sample.bare) = false) by reflexivity.
  destruct (dotless_name_validates_then_unsupported (processText Sample.world)
              Sample.world Sample.bare (Some Sample.openai) Hdot) as (Hext & Hvalid & Hrun).
  split; [exact Hdot | split; [exact Hext | split]].
  - apply Hvalid; [vm_compute; discriminate | simpl; tauto].
  - apply Hrun.
    + apply Hvalid; [vm_compute; discriminate | simpl; tauto].
    + vm_compute. intuition discriminate.
Defined.

Lemma convertToMarkdown_openai_success_witness :
  outcome (convertToMarkdown Sample.world "test text" Sample.openai [])
  = inr (ConversionResult.mk true (JStr "# X") (JNum 150) None 250)
  /\ outcome (convertToMarkdown Sample.terse "test text" Sample.openai [])
     = inr (ConversionResult.mk true (JStr "Local response") (JNum 0) None 250).
Proof.
  split.
  - refine (proj1 (convertToMarkdown_openai_success Sample.world "test text" Sample.openai []
                     (Response.mk true 200 "OK" (inr Sample.completionBody) (inr EmptyString))
                     _ _ _ _ _ _ _ _ _ _ _ _ _ _ _)
                  _ _ _ _ _);
      try reflexivity; discriminate.
  - refine (proj2 (convertToMarkdown_openai_success Sample.terse "test text" Sample.openai []
                     _ _ _ _ _ _ _ _ _ _ _ _ _ _ _ _)
                  _);
      try reflexivity; discriminate.
Defined.


Lemma custom_prompt_replaces_template_witness :
  trim "  Custom conversion instructions  " <> EmptyString
  /\ buildPrompt "test text" [Sample.example1] (Some "  Custom conversion instructions  ")
     = "Custom conversion instructions" ++ LF ++ LF ++ "Now convert this legal pleading:"
         ++ LF ++ LF ++ "test text" ++ LF ++ LF
         ++ "Provide only the clean markdown conversion:"
  /\ includes
       (buildPrompt "test text" [Sample.example1] (Some "  Custom conversion instructions  "))
       "CRITICAL REQUIREMENTS:" = false.
Proof.
  assert (Htrim : trim "  Custom conversion instructions  " <> EmptyString)
    by (vm_compute; discriminate).
  destruct (custom_prompt_replaces_template "test text" [Sample.example1]
              "  Custom conversion instructions  " Htrim) as [Hbuild Habsent].
  split; [exact Htrim | split; [exact Hbuild|]].
  apply Habsent; [simpl; tauto | discriminate | reflexivity | reflexivity].
Defined.

(** C6 as stated fails: the document text is copied into the prompt as it
    is, so a text that quotes the default template brings every line of the
    template, and the template as a whole, into the prompt. *)
Lemma custom_prompt_counterexample :
  isEmpty (trim "Summarise the pleading.") = false
  /\ includes (buildPrompt defaultTemplate [] (Some "Summarise the pleading."))
       defaultTemplate = true
  /\ forallb (includes (buildPrompt defaultTemplate [] (Some "Summarise the pleading.")))
       defaultTemplateLines = true.
Proof. repeat split; vm_compute; reflexivity. Qed.

Lemma callCustomAPI_request_witness :
  (exists request fields,
     events (callCustomAPI Sample.world "prompt" Sample.local Sample.localProvider)
     = [EvFetch request]
     /\ Request.url request = "http://localhost:11434/v1/chat/completions"
     /\ Request.method request = "POST"
     /\ Request.headers request = [("Content-Type", "application/json")]
     /\ (forall name value,
           In (name, value) (Request.headers request) -> name <> "Authorization")
     /\ Request.body request = JObj fields
     /\ lookup "model" fields = JStr "llama2")
  /\ callCustomAPI Sample.world "prompt" Sample.local
       (LLMProvider.mk "custom" "Custom" EmptyString false [])
     = callCustomAPI Sample.world "prompt" Sample.local Sample.localProvider.
Proof.
  split; [|reflexivity].
  apply (proj2 (callCustomAPI_request Sample.world "prompt" Sample.local
                  Sample.localProvider)).
  discriminate.
Defined.

Lemma registry_base_url_never_empty_witness :
  findProvider (ConversionSettings.provider Sample.local) = Some Sample.localProvider
  /\ exists request,
       events (callCustomAPI Sample.world "prompt" Sample.local Sample.localProvider)
       = [EvFetch request].
Proof.
  split; [reflexivity|].
  apply (proj2 (registry_base_url_never_empty Sample.world) "prompt" Sample.local
           Sample.localProvider eq_refl).
Defined.

End Instances.

(* ================================================================= *)
(** ** The repository's tests, replayed on the model *)

Section Replay.

Import FileProcessor LLMService.

Example formatFileSize_tests :
  map formatFileSize [0; 1024; 1048576; 1073741824; 1536]%Z
  = ["0 Bytes"; "1 KB"; "1 MB"; "1 GB"; "1.5 KB"].
Proof. vm_compute. reflexivity. Qed.

Example extract_txt :
  Pipeline.extractText Sample.world (File.mk "test.txt" "text/plain" 12) None
  = ([EvReadAsText (File.mk "test.txt" "text/plain" 12)], inr "plain text of the file").
Proof. vm_compute. reflexivity. Qed.

Example extract_docx :
  outcome (Pipeline.extractText Sample.world
             (File.mk "test.docx"
                "application/vnd.openxmlformats-officedocument.wordprocessingml.document" 12)
             None)
  = inr "text of the docx".
Proof. vm_compute. reflexivity. Qed.

(** The page of the sample document: fragments trimmed, the item without a
    string dropped, the rest joined by single spaces. *)
Example extract_pdf_raw :
  outcome (extractTextFromPdf Sample.world Sample.pdf) = inr "mock pdf content".
Proof. vm_compute. reflexivity. Qed.

(** A file of an unknown type never reaches the dispatch: the validator
    rejects it first, with its own message. *)
Example extract_unsupported :
  Pipeline.extractText Sample.world Sample.spreadsheet None
  = ([], inl (ErrorObj "Please upload a TXT, DOCX, or PDF file")).
Proof. vm_compute. reflexivity. Qed.

Example examples_reach_the_prompt :
  includes (buildPrompt "test text" [Sample.example1] (Some EmptyString))
    "Example 1 (Statement of Claim):" = true.
Proof. vm_compute. reflexivity. Qed.

Example api_error_message :
  let refusing : World := {|
    readAsText := readAsText Sample.world;
    readAsArrayBuffer := readAsArrayBuffer Sample.world;
    extractRawText := extractRawText Sample.world;
    getDocument := getDocument Sample.world;
    fetch := fun _ =>
      inr (Response.mk false 401 "Unauthorized"
             (inr (JObj [("error", JObj [("message", JStr "API key invalid")])]))
             (inr EmptyString));
    dateNow := dateNow Sample.world;
    typeErrorMessage := typeErrorMessage Sample.world;
    jsToString := jsToString Sample.world;
    jsAdd := jsAdd Sample.world |} in
  outcome (convertToMarkdown refusing "test text" Sample.openai [])
  = inr (conversionFailure "API key invalid" 250).
Proof. vm_compute. reflexivity. Qed.

Example local_llm_call :
  exists request,
    convertToMarkdown Sample.terse "test text" Sample.local []
    = ([EvFetch request],
       inr (ConversionResult.mk true (JStr "Local response") (JNum 0) None 250))
    /\ Request.url request = "http://localhost:11434/v1/chat/completions"
    /\ lookup "model" (match Request.body request with JObj fields => fields | _ => [] end)
       = JStr "llama2".
Proof. eexists. repeat split; vm_compute; reflexivity. Qed.

End Replay.

(* ================================================================= *)
(** * Further properties of the code *)

(* ================================================================= *)
(** ** The requests of the LLM client *)

Section Requests.

Import LLMService.

Variable w : World.

Lemma events_tryCatch_ret {A : Type} (m : M A) (f : Thrown -> A) :
  events (tryCatch m (fun e => ret (f e))) = events m.
Proof.
  rewrite events_tryCatch. destruct (outcome m); [apply app_nil_r | reflexivity].
Qed.

Lemma events_bind_ret {A B : Type} (m : M A) (f : A -> B) :
  events (bind m (fun a => ret (f a))) = events m.
Proof.
  rewrite events_bind. destruct (outcome m); [reflexivity | apply app_nil_r].
Qed.

(** The effects of the two entry points are those of the call they select. *)
Lemma convertToMarkdown_events (text : string) (settings : ConversionSettings.t)
    (examples : list ConversionExample.t) :
  events (convertToMarkdown w text settings examples) =
  if isBlank text then []
  else match findProvider (ConversionSettings.provider settings) with
       | None => []
       | Some provider =>
           events (dispatch w (buildPrompt text examples
                                 (Some (ConversionSettings.customPrompt settings)))
                     settings provider)
       end.
Proof.
  unfold convertToMarkdown. destruct (isBlank text); [reflexivity|].
  cbv zeta. rewrite events_tryCatch_ret.
  destruct (findProvider (ConversionSettings.provider settings)); [|reflexivity].
  apply events_bind_ret.
Qed.

Lemma processText_events (prompt : string) (settings : ConversionSettings.t) :
  events (processText w prompt settings) =
  if isBlank prompt then []
  else match findProvider (ConversionSettings.provider settings) with
       | None => []
       | Some provider => events (dispatch w prompt settings provider)
       end.
Proof.
  unfold processText. destruct (isBlank prompt); [reflexivity|].
  cbv zeta. rewrite events_tryCatch_ret.
  destruct (findProvider (ConversionSettings.provider settings)); [|reflexivity].
  apply events_bind_ret.
Qed.

(** Each branch sends nothing, or one request whose only message is the
    prompt. *)
Lemma dispatch_events (prompt : string) (settings : ConversionSettings.t)
    (provider : LLMProvider.t) :
  events (dispatch w prompt settings provider) = []
  \/ exists request,
       events (dispatch w prompt settings provider) = [EvFetch request]
       /\ Request.method request = "POST"
       /\ bodyField "messages" request = userMessages prompt.
Proof.
  unfold dispatch, callOpenAI, callAnthropic, callGroq, callCustomAPI.
  repeat match goal with
         | |- context [if ?b then _ else _] =>
             lazymatch b with
             | negb _ => fail
             | _ => destruct b
             end
         end;
    try (left; reflexivity);
    right; eexists;
    (split; [apply events_after_fetch; intros response;
             apply silent_if; auto 20 with silence
            | split; reflexivity]).
Qed.

(** X1. Whatever the input and the world, [convertToMarkdown] and
    [processText] perform one request at most, and no other effect. *)
Theorem llm_client_at_most_one_request (settings : ConversionSettings.t) :
  (forall text examples, atMostOneRequest (convertToMarkdown w text settings examples))
  /\ (forall prompt, atMostOneRequest (processText w prompt settings)).
Proof.
  split.
  - intros text examples. unfold atMostOneRequest. rewrite convertToMarkdown_events.
    destruct (isBlank text); [now left|].
    destruct (findProvider (ConversionSettings.provider settings)) as [provider|];
      [|now left].
    destruct (dispatch_events
                (buildPrompt text examples (Some (ConversionSettings.customPrompt settings)))
                settings provider) as [H | [request [H _]]];
      [now left | right; now exists request].
  - intros prompt. unfold atMostOneRequest. rewrite processText_events.
    destruct (isBlank prompt); [now left|].
    destruct (findProvider (ConversionSettings.provider settings)) as [provider|];
      [|now left].
    destruct (dispatch_events prompt settings provider) as [H | [request [H _]]];
      [now left | right; now exists request].
Qed.

(** X2. Every request of [processText] is a POST whose only message is the
    prompt as it was given, under the role [user]; every request of
    [convertToMarkdown] is a POST whose only message is the prompt that
    [buildPrompt] makes of the text, the examples and the custom
    instruction of the settings. *)
Theorem requests_carry_the_prompt (settings : ConversionSettings.t) :
  (forall prompt request,
     In (EvFetch request) (events (processText w prompt settings)) ->
     Request.method request = "POST"
     /\ bodyField "messages" request
        = JArr [JObj [("role", JStr "user"); ("content", JStr prompt)]])
  /\ (forall text examples request,
        In (EvFetch request) (events (convertToMarkdown w text settings examples)) ->
        Request.method request = "POST"
        /\ bodyField "messages" request
           = JArr [JObj [("role", JStr "user");
                         ("content",
                          JStr (buildPrompt text examples
                                  (Some (ConversionSettings.customPrompt settings))))]]).
Proof.
  split.
  - intros prompt request. rewrite processText_events.
    destruct (isBlank prompt); [intros []|].
    destruct (findProvider (ConversionSettings.provider settings)) as [provider|];
      [|intros []].
    destruct (dispatch_events prompt settings provider) as [H | [r [H Hr]]]; rewrite H.
    + intros [].
    + intros [E | []]. injection E as <-. exact Hr.
  - intros text examples request. rewrite convertToMarkdown_events.
    destruct (isBlank text); [intros []|].
    destruct (findProvider (ConversionSettings.provider settings)) as [provider|];
      [|intros []].
    destruct (dispatch_events
                (buildPrompt text examples (Some (ConversionSettings.customPrompt settings)))
                settings provider) as [H | [r [H Hr]]]; rewrite H.
    + intros [].
    + intros [E | []]. injection E as <-. exact Hr.
Qed.

End Requests.

(* ================================================================= *)
(** ** The answers of the providers *)

Section Answers.

Import LLMService.

Variable w : World.

Lemma outcome_after_fetch {A : Type} (request : Request.t) (response : Response.t)
    (k : Response.t -> M A) :
  fetch w request = inr response ->
  outcome (bind (doFetch w request) k) = outcome (k response).
Proof. intros H. now rewrite outcome_bind, outcome_doFetch, H. Qed.

Lemma hosted_provider_found (id label : string) :
  In (id, label) hostedProviders -> exists provider, findProvider id = Some provider.
Proof.
  intros [H | [H | [H | []]]]; injection H as <- _; eexists; reflexivity.
Qed.

(** A hosted provider that answers outside the 2xx range: the call throws
    the error it builds from the body. *)
Lemma hosted_call_refused (prompt : string) (settings : ConversionSettings.t)
    (provider : LLMProvider.t) (id label : string) (response : Response.t) :
  In (id, label) hostedProviders ->
  ConversionSettings.provider settings = id ->
  ConversionSettings.apiKey settings <> EmptyString ->
  (forall request, fetch w request = inr response) ->
  Response.ok response = false ->
  outcome (dispatch w prompt settings provider)
  = outcome (error <- lift (Response.json response) ;;
             inner <- lift (getProp w error "error") ;;
             message <- lift (getPropOpt w inner "message") ;;
             throw (A := Completion)
               (ErrorObj (errorMessageOf w
                  (if truthy message then message
                   else JStr (label ++ " API request failed"))))).
Proof.
  intros Hin Hid Hkey Hfetch Hok. apply isEmpty_false in Hkey.
  unfold dispatch. rewrite Hid.
  destruct Hin as [H | [H | [H | []]]]; injection H as <- <-;
    cbn [String.eqb Ascii.eqb Bool.eqb];
    unfold callOpenAI, callAnthropic, callGroq; rewrite Hkey;
    rewrite (outcome_after_fetch _ response) by apply Hfetch;
    now rewrite Hok.
Qed.

(** X3. A hosted provider (OpenAI, Anthropic, Groq) that answers a
    conversion outside the 2xx range with a JSON object: the result is a
    failure whose error is the [error.message] of the body when that is a
    string that is not empty, and the provider's generic message when the
    body has no [error] or no usable message; a body that cannot be read as
    JSON gives the failure with what [json()] threw. *)
Theorem hosted_error_answer (text : string) (settings : ConversionSettings.t)
    (examples : list ConversionExample.t) (id label : string) (response : Response.t) :
  allWhiteSpace text = false ->
  In (id, label) hostedProviders ->
  ConversionSettings.provider settings = id ->
  ConversionSettings.apiKey settings <> EmptyString ->
  (forall request, fetch w request = inr response) ->
  Response.ok response = false ->
  let result := outcome (convertToMarkdown w text settings examples) in
  (forall fields err m,
     Response.json response = inr (JObj fields) ->
     lookup "error" fields = JObj err -> lookup "message" err = JStr m ->
     m <> EmptyString ->
     result = inr (conversionFailure m (elapsed w)))
  /\ (forall fields err,
        Response.json response = inr (JObj fields) ->
        lookup "error" fields = JObj err -> truthy (lookup "message" err) = false ->
        result = inr (conversionFailure (label ++ " API request failed") (elapsed w)))
  /\ (forall fields,
        Response.json response = inr (JObj fields) ->
        lookup "error" fields = JUndefined ->
        result = inr (conversionFailure (label ++ " API request failed") (elapsed w)))
  /\ (forall e,
        Response.json response = inl e ->
        result = inr (conversionFailure (messageOr "Unknown error occurred" e) (elapsed w))).
Proof.
  intros Hws Hin Hid Hkey Hfetch Hok result.
  rewrite <- isBlank_allWhiteSpace in Hws.
  assert (Hres : forall e,
             outcome (error <- lift (Response.json response) ;;
                      inner <- lift (getProp w error "error") ;;
                      message <- lift (getPropOpt w inner "message") ;;
                      throw (A := Completion)
                        (ErrorObj (errorMessageOf w
                           (if truthy message then message
                            else JStr (label ++ " API request failed"))))) = inl e ->
             result = inr (conversionFailure (messageOr "Unknown error occurred" e)
                             (elapsed w))).
  { intros e He. unfold result.
    rewrite (convertToMarkdown_outcome w text settings examples Hws).
    destruct (hosted_provider_found id label Hin) as [provider Hfind].
    rewrite Hid, Hfind.
    now rewrite (hosted_call_refused _ settings provider id label response
                   Hin Hid Hkey Hfetch Hok), He. }
  split; [|split; [|split]].
  - intros fields err m Hjson Herr Hm Hne.
    rewrite (Hres (ErrorObj m)); [reflexivity|].
    rewrite Hjson, bind_lift_inr. cbn [getProp]. rewrite Herr, bind_lift_inr.
    unfold getPropOpt. cbn [nullish getProp]. rewrite Hm, bind_lift_inr.
    cbn [truthy]. apply isEmpty_false in Hne. now rewrite Hne.
  - intros fields err Hjson Herr Hfalsy.
    rewrite (Hres (ErrorObj (label ++ " API request failed"))); [reflexivity|].
    rewrite Hjson, bind_lift_inr. cbn [getProp]. rewrite Herr, bind_lift_inr.
    unfold getPropOpt. cbn [nullish getProp]. rewrite bind_lift_inr.
    now rewrite Hfalsy.
  - intros fields Hjson Herr.
    rewrite (Hres (ErrorObj (label ++ " API request failed"))); [reflexivity|].
    rewrite Hjson, bind_lift_inr. cbn [getProp]. rewrite Herr, bind_lift_inr.
    reflexivity.
  - intros e Hjson. apply Hres. now rewrite Hjson.
Qed.

(** X4. The local provider answering a conversion outside the 2xx range:
    the result is a failure whose error names the status code, the status
    text and the body of the answer read as text. *)
Theorem local_error_answer (text : string) (settings : ConversionSettings.t)
    (examples : list ConversionExample.t) (response : Response.t) (body : string) :
  allWhiteSpace text = false ->
  ConversionSettings.provider settings = "local" ->
  (forall request, fetch w request = inr response) ->
  Response.ok response = false ->
  Response.text response = inr body ->
  outcome (convertToMarkdown w text settings examples)
  = inr (conversionFailure
           ("Local API request failed: " ++ ofInteger (Response.status response) ++ " "
              ++ Response.statusText response ++ ". " ++ body)
           (elapsed w)).
Proof.
  intros Hws Hid Hfetch Hok Hbody.
  rewrite <- isBlank_allWhiteSpace in Hws.
  rewrite (convertToMarkdown_outcome w text settings examples Hws), Hid.
  change (findProvider "local") with (Some Sample.localProvider). cbv iota.
  unfold dispatch. rewrite Hid. cbn [String.eqb Ascii.eqb Bool.eqb].
  unfold callCustomAPI.
  assert (Hbase : isEmpty (orElse (ConversionSettings.customBaseUrl settings)
                             (LLMProvider.baseUrl Sample.localProvider)) = false).
  { apply isEmpty_false, orElse_nonempty. discriminate. }
  rewrite Hbase, (outcome_after_fetch _ response) by apply Hfetch.
  now rewrite Hok, Hbody, bind_lift_inr.
Qed.

(** A provider of the chat-completions kind that answers in the 2xx range:
    the call resolves or throws as the reading of the body does. *)
Lemma chat_call_answered (prompt : string) (settings : ConversionSettings.t)
    (provider : LLMProvider.t) (response : Response.t) (data : JSValue) :
  findProvider (ConversionSettings.provider settings) = Some provider ->
  configured settings = true ->
  ConversionSettings.provider settings <> "anthropic" ->
  (forall request, fetch w request = inr response) ->
  Response.ok response = true ->
  Response.json response = inr data ->
  outcome (dispatch w prompt settings provider) = outcome (chatCompletion w data).
Proof.
  intros Hfind Hconf Hna Hfetch Hok Hjson.
  apply String.eqb_neq in Hna.
  unfold configured in Hconf. rewrite Hfind in Hconf.
  unfold dispatch, arrayIncludes in *. cbn [existsb] in Hconf.
  rewrite Hna in *.
  destruct (String.eqb (ConversionSettings.provider settings) "openai");
    [|destruct (String.eqb (ConversionSettings.provider settings) "groq")];
    cbn [orb] in Hconf; apply negb_true_iff in Hconf;
    unfold callOpenAI, callGroq, callCustomAPI; rewrite Hconf;
    rewrite (outcome_after_fetch _ response) by apply Hfetch;
    rewrite Hok, Hjson; cbn [negb]; rewrite bind_lift_inr; reflexivity.
Qed.

(** X5. A 2xx answer of OpenAI, Groq or the local provider whose body does
    not have the expected shape.  Without [choices], or with an empty
    [choices], the conversion is a failure that carries the engine's
    TypeError message; with a first choice whose message has no [content],
    the conversion is a success whose markdown is undefined. *)
Theorem malformed_completion (text : string) (settings : ConversionSettings.t)
    (examples : list ConversionExample.t) (response : Response.t)
    (fields : list (string * JSValue)) :
  allWhiteSpace text = false ->
  configured settings = true ->
  ConversionSettings.provider settings <> "anthropic" ->
  (forall request, fetch w request = inr response) ->
  Response.ok response = true ->
  Response.json response = inr (JObj fields) ->
  let result := outcome (convertToMarkdown w text settings examples) in
  (lookup "choices" fields = JUndefined ->
   result = inr (conversionFailure (typeErrorMessage w JUndefined "0") (elapsed w)))
  /\ (lookup "choices" fields = JArr [] ->
      result = inr (conversionFailure (typeErrorMessage w JUndefined "message") (elapsed w)))
  /\ (forall choice others message,
        lookup "choices" fields = JArr (JObj choice :: others) ->
        lookup "message" choice = JObj message ->
        lookup "content" message = JUndefined ->
        exists tokens,
          result = inr (ConversionResult.mk true JUndefined tokens None (elapsed w))).
Proof.
  intros Hws Hconf Hna Hfetch Hok Hjson result.
  rewrite <- isBlank_allWhiteSpace in Hws.
  unfold result. rewrite (convertToMarkdown_outcome w text settings examples Hws).
  destruct (findProvider (ConversionSettings.provider settings)) as [provider|] eqn:Hfind;
    [|unfold configured in Hconf; now rewrite Hfind in Hconf].
  rewrite (chat_call_answered _ settings provider response _ Hfind Hconf Hna Hfetch Hok Hjson).
  unfold chatCompletion. cbn [getProp]. rewrite bind_lift_inr.
  split; [|split].
  - intros Hc. now rewrite Hc.
  - intros Hc. rewrite Hc. cbn [getIndex0 hd]. now rewrite bind_lift_inr.
  - intros choice others message Hc Hm Hcontent.
    rewrite Hc. cbn [getIndex0 hd]. rewrite bind_lift_inr.
    cbn [getProp]. rewrite Hm, bind_lift_inr.
    cbn [getProp]. rewrite Hcontent, !bind_lift_inr.
    unfold getPropOpt.
    destruct (lookup "usage" fields); cbn [nullish getProp];
      rewrite bind_lift_inr; eexists; reflexivity.
Qed.

(** X6. With provider [anthropic] and an API key, a 2xx answer whose body
    has [content[0]] an object makes the conversion a success whose markdown
    is the [text] of that block; [tokensUsed] is the sum of the input and
    output token counts of [usage], and 0 when the body has no [usage]. *)
Theorem anthropic_success (text : string) (settings : ConversionSettings.t)
    (examples : list ConversionExample.t) (response : Response.t)
    (fields block : list (string * JSValue)) (others : list JSValue) :
  allWhiteSpace text = false ->
  ConversionSettings.provider settings = "anthropic" ->
  ConversionSettings.apiKey settings <> EmptyString ->
  (forall request, fetch w request = inr response) ->
  Response.ok response = true ->
  Response.json response = inr (JObj fields) ->
  lookup "content" fields = JArr (JObj block :: others) ->
  let result := outcome (convertToMarkdown w text settings examples) in
  (forall usage input output,
     lookup "usage" fields = JObj usage ->
     lookup "input_tokens" usage = JNum input ->
     lookup "output_tokens" usage = JNum output ->
     result = inr (ConversionResult.mk true (lookup "text" block)
                     (JNum (PrimFloat.add input output)) None (elapsed w)))
  /\ (lookup "usage" fields = JUndefined ->
      result = inr (ConversionResult.mk true (lookup "text" block) (JNum 0) None
                      (elapsed w))).
Proof.
  intros Hws Hid Hkey Hfetch Hok Hjson Hcontent result.
  rewrite <- isBlank_allWhiteSpace in Hws. apply isEmpty_false in Hkey.
  unfold result. rewrite (convertToMarkdown_outcome w text settings examples Hws), Hid.
  change (findProvider "anthropic")
    with (Some (LLMProvider.mk "anthropic" "Anthropic Claude" "https://api.anthropic.com/v1"
                  true ["claude-3-5-sonnet-20241022"; "claude-3-haiku-20240307";
                        "claude-3-opus-20240229"])).
  cbv iota. unfold dispatch. rewrite Hid. cbn [String.eqb Ascii.eqb Bool.eqb].
  unfold callAnthropic.
  rewrite Hkey, (outcome_after_fetch _ response) by apply Hfetch.
  rewrite Hok. cbn [negb]. rewrite Hjson, bind_lift_inr.
  cbn [getProp]. rewrite Hcontent, bind_lift_inr.
  cbn [getIndex0 hd]. rewrite bind_lift_inr.
  cbn [getProp]. rewrite !bind_lift_inr.
  unfold getPropOpt.
  split.
  - intros usage input output Hu Hi Ho. rewrite Hu. cbn [nullish getProp].
    rewrite Hi, Ho, !bind_lift_inr. reflexivity.
  - intros Hu. rewrite Hu. cbn [nullish]. rewrite !bind_lift_inr. reflexivity.
Qed.

(** X7. What the hosted branches send when the settings carry an API key:
    [callOpenAI] and [callGroq] send the same request, to
    [/chat/completions] under the provider's base URL, with the key as
    bearer token; [callAnthropic] sends to [/messages] with the key in
    [x-api-key], the version header, and no [Authorization].  All three
    name the model of the settings and pass its temperature and token
    limit. *)
Theorem hosted_requests (prompt : string) (settings : ConversionSettings.t)
    (provider : LLMProvider.t) :
  ConversionSettings.apiKey settings <> EmptyString ->
  exists chat messages,
    events (callOpenAI w prompt settings provider) = [EvFetch chat]
    /\ events (callGroq w prompt settings provider) = [EvFetch chat]
    /\ events (callAnthropic w prompt settings provider) = [EvFetch messages]
    /\ Request.url chat = LLMProvider.baseUrl provider ++ "/chat/completions"
    /\ Request.url messages = LLMProvider.baseUrl provider ++ "/messages"
    /\ headerOf "Authorization" (Request.headers chat)
       = Some ("Bearer " ++ ConversionSettings.apiKey settings)
    /\ headerOf "Authorization" (Request.headers messages) = None
    /\ headerOf "x-api-key" (Request.headers messages)
       = Some (ConversionSettings.apiKey settings)
    /\ headerOf "anthropic-version" (Request.headers messages) = Some "2023-06-01"
    /\ forall request, request = chat \/ request = messages ->
         headerOf "Content-Type" (Request.headers request) = Some "application/json"
         /\ bodyField "model" request = JStr (ConversionSettings.model settings)
         /\ bodyField "temperature" request = JNum (ConversionSettings.temperature settings)
         /\ bodyField "max_tokens" request = JNum (ConversionSettings.maxTokens settings).
Proof.
  intros Hkey. apply isEmpty_false in Hkey.
  unfold callOpenAI, callGroq, callAnthropic. rewrite Hkey.
  eexists. eexists.
  split; [apply events_after_fetch; intros response;
          apply silent_if; auto 20 with silence|].
  split; [apply events_after_fetch; intros response;
          apply silent_if; auto 20 with silence|].
  split; [apply events_after_fetch; intros response;
          apply silent_if; auto 20 with silence|].
  repeat (split; [reflexivity|]).
  intros request [-> | ->]; repeat split; reflexivity.
Qed.

End Answers.

(* ================================================================= *)
(** ** The default prompt *)

Section DefaultPrompt.

Import LLMService.

Lemma appendExamples_blocks (examples : list ConversionExample.t) :
  forall prompt index,
    appendExamples prompt index examples = prompt ++ exampleBlocks index examples.
Proof.
  induction examples as [|example rest IH]; intros prompt index.
  - simpl. now rewrite append_nil_r.
  - cbn [appendExamples exampleBlocks]. cbv zeta. rewrite IH.
    unfold exampleBlock. now rewrite !append_assoc.
Qed.

Lemma exampleBlocks_app (before after : list ConversionExample.t) :
  forall index,
    exampleBlocks index (before ++ after)
    = exampleBlocks index before ++ exampleBlocks (index + List.length before) after.
Proof.
  induction before as [|example rest IH]; intros index.
  - simpl. now rewrite Nat.add_0_r.
  - cbn [exampleBlocks app List.length]. rewrite IH, append_assoc.
    now rewrite Nat.add_succ_r.
Qed.

Lemma defaultPrompt_layout (text : string) (examples : list ConversionExample.t) :
  defaultPrompt text examples
  = defaultTemplate ++ examplesSection examples ++ LF
      ++ "Now convert this legal pleading:" ++ LF ++ LF ++ text ++ closingInstruction.
Proof.
  unfold defaultPrompt. destruct examples as [|example rest].
  - reflexivity.
  - cbv zeta. change (0 <? List.length (example :: rest))%nat with true. cbv iota.
    rewrite appendExamples_blocks. unfold examplesSection.
    now rewrite !append_assoc.
Qed.

Lemma blank_custom_prompt (text : string) (examples : list ConversionExample.t)
    (custom : string) :
  allWhiteSpace custom = true ->
  buildPrompt text examples (Some custom) = defaultPrompt text examples.
Proof.
  intros Hws. rewrite <- isBlank_allWhiteSpace in Hws. unfold buildPrompt.
  destruct custom as [|c r]; [reflexivity|].
  rewrite isBlank_trim in Hws. now rewrite Hws, andb_false_r.
Qed.

(** X8. Without a custom instruction, or with one that is empty or white
    space only, the prompt is the default template, then the examples
    section (nothing for no example; else the heading and one block for each
    example, in the order of the list), then the line that introduces the
    text, the text, and the closing instruction. *)
Theorem default_prompt_layout (text : string) (examples : list ConversionExample.t) :
  let layout :=
    defaultTemplate ++ examplesSection examples ++ LF
      ++ "Now convert this legal pleading:" ++ LF ++ LF ++ text ++ closingInstruction in
  buildPrompt text examples None = layout
  /\ forall custom, allWhiteSpace custom = true ->
       buildPrompt text examples (Some custom) = layout.
Proof.
  intros layout. split.
  - apply defaultPrompt_layout.
  - intros custom Hws. rewrite (blank_custom_prompt _ _ _ Hws).
    apply defaultPrompt_layout.
Qed.

(** X9. In the default prompt the example at position [k] of the list
    (from 0) appears in full under the label [Example k+1] with its
    pleading type, followed by its original text and its converted
    markdown, both unchanged; and the prompt ends with the text and the
    closing instruction. *)
Theorem every_example_in_default_prompt (text custom : string)
    (before after : list ConversionExample.t) (example : ConversionExample.t) :
  allWhiteSpace custom = true ->
  let prompt := buildPrompt text (before ++ example :: after) (Some custom) in
  includes prompt
    ("Example " ++ ofInteger (Z.of_nat (List.length before) + 1) ++ " ("
       ++ ConversionExample.pleadingType example ++ "):" ++ LF
       ++ "Original:" ++ LF ++ ConversionExample.originalText example ++ LF ++ LF
       ++ "Converted:" ++ LF ++ ConversionExample.convertedMarkdown example ++ LF ++ LF)
  = true
  /\ endsWith prompt (text ++ closingInstruction) = true.
Proof.
  intros Hws prompt. unfold prompt.
  rewrite (blank_custom_prompt _ _ _ Hws), defaultPrompt_layout.
  assert (Hsection : examplesSection (before ++ example :: after)
                     = (LF ++ "Here are examples of good conversions:" ++ LF ++ LF
                          ++ exampleBlocks 0 before)
                       ++ exampleBlock (List.length before) example
                       ++ exampleBlocks (S (List.length before)) after).
  { unfold examplesSection.
    destruct (before ++ example :: after)%list eqn:E;
      [now destruct before|].
    rewrite <- E, exampleBlocks_app. cbn [exampleBlocks Nat.add].
    now rewrite !append_assoc. }
  split.
  - apply includes_spec. rewrite Hsection.
    exists (defaultTemplate ++ LF ++ "Here are examples of good conversions:" ++ LF ++ LF
              ++ exampleBlocks 0 before).
    exists (exampleBlocks (S (List.length before)) after ++ LF
              ++ "Now convert this legal pleading:" ++ LF ++ LF ++ text
              ++ closingInstruction).
    unfold exampleBlock. now rewrite !append_assoc.
  - apply endsWith_spec.
    exists (defaultTemplate ++ examplesSection (before ++ example :: after) ++ LF
              ++ "Now convert this legal pleading:" ++ LF ++ LF).
    now rewrite !append_assoc.
Qed.

End DefaultPrompt.

(* ================================================================= *)
(** ** Plain text, DOCX, and the rejections of [extractText] *)

Section Extraction.

Import FileProcessor.

Variable processText : string -> ConversionSettings.t -> M ProcessResult.t.
Variable w : World.

(** X10. A valid file that the plain-text branch takes is read once as
    text and returned as it is, neither trimmed nor cleaned; a valid file
    that the DOCX branch takes is read once as a buffer and handed to
    mammoth.  In both branches the settings play no part and
    [processText] is never called, and a failed read or parse rejects with
    the branch's message behind the orchestrator's prefix. *)
Theorem text_and_docx_bypass_the_llm (file : File.t)
    (settings : option ConversionSettings.t) :
  validateFile file DEFAULT_OPTIONS = inr tt ->
  (isTxt file = true ->
   FileProcessor.extractText processText w file settings
   = ([EvReadAsText file],
      match readAsText w file with
      | Some text => inr text
      | None => inl (ErrorObj "Failed to extract text: Failed to read text file")
      end))
  /\ (isTxt file = false -> isDocx file = true ->
      FileProcessor.extractText processText w file settings
      = match readAsArrayBuffer w file with
        | None =>
            ([EvReadAsArrayBuffer file],
             inl (ErrorObj "Failed to extract text: Failed to read DOCX file"))
        | Some buffer =>
            ([EvReadAsArrayBuffer file; EvExtractRawText buffer],
             match extractRawText w buffer with
             | Some value => inr value
             | None =>
                 inl (ErrorObj
                        "Failed to extract text: Failed to extract text from DOCX file")
             end)
        end).
Proof.
  intros Hvalid. split.
  - intros Ht. unfold isTxt in Ht. unfold FileProcessor.extractText.
    rewrite Hvalid, bind_lift_inr, Ht. unfold extractTextFromTxt.
    now destruct (readAsText w file).
  - intros Ht Hd. unfold isTxt in Ht. unfold isDocx in Hd.
    unfold FileProcessor.extractText.
    rewrite Hvalid, bind_lift_inr, Ht, Hd. unfold extractTextFromDocx.
    destruct (readAsArrayBuffer w file) as [buffer|]; [|reflexivity].
    now destruct (extractRawText w buffer).
Qed.

(** X11. Whatever [extractText] rejects with is an [Error]: one of the two
    messages of the validator, or a message that starts with
    [Failed to extract text: ]. *)
Theorem extractText_rejections (file : File.t) (settings : option ConversionSettings.t)
    (e : Thrown) :
  outcome (FileProcessor.extractText processText w file settings) = inl e ->
  e = ErrorObj "File size must be less than 10 MB"
  \/ e = ErrorObj "Please upload a TXT, DOCX, or PDF file"
  \/ exists cause, e = ErrorObj ("Failed to extract text: " ++ cause).
Proof.
  unfold FileProcessor.extractText. rewrite outcome_bind.
  cbn [lift outcome snd]. rewrite validateFile_default.
  destruct (sizeCeiling <? File.size file)%Z.
  { intros H. injection H as <-. now left. }
  destruct (negb (arrayIncludes supportedMimeTypes (File.type file))
            && negb (arrayIncludes supportedDotExtensions (fileExtension file))).
  { intros H. injection H as <-. now right; left. }
  rewrite outcome_tryCatch.
  match goal with
  | |- match outcome ?m with _ => _ end = _ -> _ => destruct (outcome m) as [cause | text]
  end.
  - cbn [throw outcome snd]. intros H. injection H as <-.
    right; right. now eexists.
  - discriminate.
Qed.

End Extraction.

(* ================================================================= *)
(** ** The PDF extractor and the cleaning step *)

Lemma isEmpty_true_length (s : string) : isEmpty s = true -> String.length s = 0%nat.
Proof. destruct s; [reflexivity | discriminate]. Qed.

Section PdfPages.

Import FileProcessor.

Variable w : World.

Lemma pagesLoop_loaded (pages : list (list TextItem)) :
  forall pageNum fullText,
    pagesLoop (map inr pages) pageNum fullText
    = (map EvGetPage (seq pageNum (List.length pages)),
       inr (fullText ++ pagesText pages)).
Proof.
  induction pages as [|items rest IH]; intros pageNum fullText.
  - simpl. now rewrite append_nil_r.
  - cbn [map pagesLoop]. rewrite bind_lift_inr. cbv zeta. rewrite IH.
    cbn [emit bind List.length seq map app pagesText].
    destruct (isEmpty (pageTextOf items)); [reflexivity|].
    now rewrite !append_assoc.
Qed.

Lemma pagesLoop_failed (before : list (list TextItem)) (e : Thrown)
    (after : PdfDocument) :
  forall pageNum fullText,
    pagesLoop (map inr before ++ inl e :: after)%list pageNum fullText
    = (map EvGetPage (seq pageNum (S (List.length before))), inl e).
Proof.
  induction before as [|items rest IH]; intros pageNum fullText.
  - reflexivity.
  - cbn [map app pagesLoop]. rewrite bind_lift_inr. cbv zeta. rewrite IH.
    reflexivity.
Qed.

(** X12. The pages of a PDF are asked for one by one, from page 1 on.
    When every page loads, the text is the trimmed sequence of the page
    texts that are not empty, each followed by a blank line.  When a page
    fails to load, no later page is asked for, and the extractor rejects
    with the cause between its own prefix and its advice. *)
Theorem pdf_pages_in_order (file : File.t) (buffer : ArrayBuffer) :
  readAsArrayBuffer w file = Some (Some buffer) ->
  (forall pages,
     getDocument w buffer = inr (map inr pages) ->
     trim (pagesText pages) <> EmptyString ->
     extractTextFromPdf w file
     = (EvReadAsArrayBuffer file :: EvGetDocument buffer
          :: map EvGetPage (seq 1 (List.length pages)),
        inr (trim (pagesText pages))))
  /\ (forall before e after,
        getDocument w buffer = inr (map inr before ++ inl e :: after)%list ->
        extractTextFromPdf w file
        = (EvReadAsArrayBuffer file :: EvGetDocument buffer
             :: map EvGetPage (seq 1 (S (List.length before))),
           inl (ErrorObj ("Failed to extract text from PDF: "
                            ++ messageOr "Unknown error" e
                            ++ ". Please ensure the PDF contains selectable text.")))).
Proof.
  intros Hread. split.
  - intros pages Hdoc Htext. apply isEmpty_false in Htext.
    unfold extractTextFromPdf. rewrite Hread, Hdoc, bind_lift_inr, pagesLoop_loaded.
    change (EmptyString ++ pagesText pages) with (pagesText pages).
    cbn [bind emit]. rewrite Htext. cbn [ret tryCatch app]. now rewrite app_nil_r.
  - intros before e after Hdoc.
    unfold extractTextFromPdf. rewrite Hread, Hdoc, bind_lift_inr, pagesLoop_failed.
    cbn [bind emit tryCatch throw app]. now rewrite app_nil_r.
Qed.

Lemma dropped_items_no_text (items : list TextItem) :
  forallb droppedItem items = true ->
  filter (fun s => (0 <? String.length s)%nat) (map trim (itemStrings items)) = [].
Proof.
  induction items as [|item rest IH]; [reflexivity|].
  cbn [forallb]. intros H. apply andb_true_iff in H as [Hitem Hrest].
  unfold droppedItem in Hitem. cbn [itemStrings].
  destruct (str item) as [ | | b | x | s | l | f]; try now apply IH.
  destruct (isEmpty s) eqn:Es; [now apply IH|].
  cbn [map filter]. rewrite isBlank_trim in Hitem.
  apply isEmpty_true_length in Hitem. rewrite Hitem. cbn. now apply IH.
Qed.

Lemma dropped_pages_no_text (pages : list (list TextItem)) :
  forallb (forallb droppedItem) pages = true -> pagesText pages = EmptyString.
Proof.
  induction pages as [|items rest IH]; [reflexivity|].
  cbn [forallb]. intros H. apply andb_true_iff in H as [Hitems Hrest].
  cbn [pagesText]. unfold pageTextOf.
  rewrite (dropped_items_no_text items Hitems). cbn [join isEmpty].
  now rewrite (IH Hrest).
Qed.

(** X13. A PDF that opens and whose pages hold no usable fragment (every
    item lacks a string or holds a blank one, as in a scanned document):
    every page is read, then [extractText] rejects with the message about
    readable text, wrapped by the extractor and again by the orchestrator;
    [processText] is never called. *)
Theorem pdf_without_text_layer
    (processText : string -> ConversionSettings.t -> M ProcessResult.t)
    (file : File.t) (buffer : ArrayBuffer) (pages : list (list TextItem))
    (settings : ConversionSettings.t) :
  validateFile file DEFAULT_OPTIONS = inr tt ->
  reachesPdfBranch file = true ->
  readAsArrayBuffer w file = Some (Some buffer) ->
  getDocument w buffer = inr (map inr pages) ->
  forallb (forallb droppedItem) pages = true ->
  FileProcessor.extractText processText w file (Some settings)
  = (EvReadAsArrayBuffer file :: EvGetDocument buffer
       :: map EvGetPage (seq 1 (List.length pages)),
     inl (ErrorObj
            ("Failed to extract text: Failed to extract text from PDF: "
               ++ "No readable text found in PDF. The PDF may not contain selectable text or may be image-based. Please ensure the PDF is OCRed and contains selectable text."
               ++ ". Please ensure the PDF contains selectable text."))).
Proof.
  intros Hvalid Hpdf Hread Hdoc Hdropped.
  assert (Hextract :
            extractTextFromPdf w file
            = (EvReadAsArrayBuffer file :: EvGetDocument buffer
                 :: map EvGetPage (seq 1 (List.length pages)),
               inl (ErrorObj
                      ("Failed to extract text from PDF: "
                         ++ "No readable text found in PDF. The PDF may not contain selectable text or may be image-based. Please ensure the PDF is OCRed and contains selectable text."
                         ++ ". Please ensure the PDF contains selectable text.")))).
  { unfold extractTextFromPdf.
    rewrite Hread, Hdoc, bind_lift_inr, pagesLoop_loaded.
    rewrite (dropped_pages_no_text pages Hdropped).
    cbn [bind emit].
    change (isEmpty (trim (EmptyString ++ EmptyString))) with true.
    cbn [tryCatch throw app]. rewrite ?app_nil_r. reflexivity. }
  unfold reachesPdfBranch in Hpdf.
  apply andb_true_iff in Hpdf as [Hpdf Hp].
  apply andb_true_iff in Hpdf as [Ht Hd].
  apply negb_true_iff in Ht, Hd.
  unfold isTxt in Ht. unfold isDocx in Hd. unfold isPdf in Hp.
  unfold FileProcessor.extractText.
  rewrite Hvalid, bind_lift_inr, Ht, Hd, Hp, Hextract.
  cbn [bind tryCatch throw app]. rewrite ?app_nil_r. reflexivity.
Qed.

Lemma itemStrings_app (before after : list TextItem) :
  itemStrings (before ++ after) = (itemStrings before ++ itemStrings after)%list.
Proof.
  induction before as [|item rest IH]; [reflexivity|].
  cbn [app itemStrings]. destruct (str item) as [ | | b | x | s | l | f]; try exact IH.
  destruct (isEmpty s); [exact IH | now rewrite IH].
Qed.

(** X14. An item that the filters of the extractor drop (no string, or a
    string that is empty or blank) leaves no trace in the text of its page:
    the fragments around it are joined by one space, as if it were not
    there. *)
Theorem dropped_items_leave_no_trace (before after : list TextItem) (item : TextItem) :
  droppedItem item = true ->
  pageTextOf (before ++ item :: after) = pageTextOf (before ++ after).
Proof.
  intros Hitem. unfold pageTextOf.
  change (item :: after) with ([item] ++ after)%list.
  rewrite !itemStrings_app, !map_app, !filter_app.
  rewrite (dropped_items_no_text [item]); [reflexivity|].
  cbn [forallb]. now rewrite Hitem.
Qed.

End PdfPages.

Section Cleaning.

Import FileProcessor.

Variable processText : string -> ConversionSettings.t -> M ProcessResult.t.
Variable w : World.

Lemma includes_append (a m b : string) : includes (a ++ m ++ b) m = true.
Proof. apply includes_spec. now exists a, b. Qed.



End Cleaning.

Section SizesInBytes.

Import FileProcessor.
Open Scope Z_scope.

(** X16. A size from 1 to 1023 is shown as the integer itself, without
    decimals, and the unit Bytes. *)
Theorem formatFileSize_whole_bytes (bytes : Z) :
  1 <= bytes <= 1023 -> formatFileSize bytes = ofInteger bytes ++ " Bytes".
Proof.
  intros Hb.
  rewrite (formatFileSize_positive bytes 0) by (change (1024 ^ (0 + 1)) with 1024;
                                                change (1024 ^ 0) with 1; lia).
  change (1024 ^ 0) with 1. change (nth (Z.to_nat 0) sizes "undefined") with "Bytes".
  unfold toFixed2, hundredthsToString.
  replace ((2 * 100 * bytes + 1) / (2 * 1)) with (bytes * 100)
    by (apply (Z.div_unique _ _ _ 1); lia).
  now rewrite Z.mod_mul, Z.div_mul by lia.
Qed.

End SizesInBytes.

(* ================================================================= *)
(** ** The callers *)

Section AppConversion.

Import LLMService.

Variable w : World.

Lemma registry_base_urls (provider : LLMProvider.t) :
  In provider LLM_PROVIDERS -> LLMProvider.baseUrl provider <> EmptyString.
Proof.
  intros [<- | [<- | [<- | [<- | []]]]]; discriminate.
Qed.

Lemma trim_length_positive (s : string) :
  (0 <? String.length (trim s))%nat = true -> s <> EmptyString.
Proof. intros H ->. discriminate. Qed.

(** The gate of the application is at least as strict as what the client
    asks for before it sends a request. *)
Lemma app_gate_configured (settings : ConversionSettings.t) (provider : LLMProvider.t) :
  App.isConfigured settings = true ->
  findProvider (ConversionSettings.provider settings) = Some provider ->
  configured settings = true.
Proof.
  intros Hgate Hfind. unfold configured. rewrite Hfind.
  unfold App.isConfigured in Hgate.
  destruct (arrayIncludes ["openai"; "anthropic"; "groq"]
              (ConversionSettings.provider settings)) eqn:Hhosted.
  - apply orb_true_iff in Hgate as [Hlocal | Hkey].
    + apply String.eqb_eq in Hlocal. rewrite Hlocal in Hhosted. discriminate.
    + apply negb_true_iff, isEmpty_false. now apply trim_length_positive.
  - apply negb_true_iff, isEmpty_false, orElse_nonempty, registry_base_urls.
    now apply find_some in Hfind as [Hin _].
Qed.

Lemma configured_dispatch_sends (prompt : string) (settings : ConversionSettings.t)
    (provider : LLMProvider.t) :
  findProvider (ConversionSettings.provider settings) = Some provider ->
  configured settings = true ->
  exists request, events (dispatch w prompt settings provider) = [EvFetch request].
Proof.
  intros Hfind Hconf. unfold configured in Hconf. rewrite Hfind in Hconf.
  unfold dispatch, arrayIncludes in *. cbn [existsb] in Hconf.
  destruct (String.eqb (ConversionSettings.provider settings) "openai");
    [|destruct (String.eqb (ConversionSettings.provider settings) "anthropic");
      [|destruct (String.eqb (ConversionSettings.provider settings) "groq")]];
    cbn [orb] in Hconf; apply negb_true_iff in Hconf;
    unfold callOpenAI, callAnthropic, callGroq, callCustomAPI; rewrite Hconf;
    eexists; apply events_after_fetch; intros response;
    apply silent_if; auto 20 with silence.
Qed.

Lemma convertToMarkdown_resolves (text : string) (settings : ConversionSettings.t)
    (examples : list ConversionExample.t) :
  exists result, outcome (convertToMarkdown w text settings examples) = inr result.
Proof.
  destruct (isBlank text) eqn:Hblank.
  - unfold convertToMarkdown. rewrite Hblank. now eexists.
  - rewrite (convertToMarkdown_outcome w text settings examples Hblank). now eexists.
Qed.

(** X17. When the application's gate [isConfigured] lets a conversion
    through and the provider is one of the registry, the client sends its
    request: neither the API-key guard of a hosted branch nor the base-URL
    guard of the local branch stops it.  The gate is stricter than the
    client: an API key made of white space only closes the gate for every
    provider but the local one. *)
Theorem app_gate_and_client_guards (settings : ConversionSettings.t) :
  (forall provider text examples,
     App.isConfigured settings = true ->
     findProvider (ConversionSettings.provider settings) = Some provider ->
     allWhiteSpace text = false ->
     exists request,
       events (convertToMarkdown w text settings examples) = [EvFetch request])
  /\ (ConversionSettings.provider settings <> "local" ->
      allWhiteSpace (ConversionSettings.apiKey settings) = true ->
      App.isConfigured settings = false).
Proof.
  split.
  - intros provider text examples Hgate Hfind Hws.
    rewrite <- isBlank_allWhiteSpace in Hws.
    rewrite convertToMarkdown_events, Hws, Hfind.
    apply configured_dispatch_sends; [assumption|].
    now apply (app_gate_configured settings provider).
  - intros Hlocal Hkey. unfold App.isConfigured.
    apply String.eqb_neq in Hlocal. rewrite Hlocal.
    rewrite <- isBlank_allWhiteSpace, isBlank_trim in Hkey.
    apply isEmpty_true_length in Hkey. now rewrite Hkey.
Qed.

(** X18. [handleConvert] never throws and leaves the document, the
    settings and the examples as they were, in every state.  Without a
    configuration it performs no effect and changes nothing but
    [showSettings], which becomes true.  With a configuration and no
    document it performs no effect and changes nothing.  With a document
    and a configuration its effects are those of [convertToMarkdown] on the
    extracted text and the selected examples, and it ends with the result
    of that call stored and [isConverting] false: the handler's own [catch]
    never supplies the result. *)
Theorem handleConvert_stores_the_client_result (st : App.State) :
  (exists st',
     outcome (App.handleConvert w st) = inr st'
     /\ App.document st' = App.document st
     /\ App.settings st' = App.settings st
     /\ App.examples st' = App.examples st)
  /\ (App.isConfigured (App.settings st) = false ->
      App.handleConvert w st
      = ([], inr {| App.document := App.document st;
                    App.conversionResult := App.conversionResult st;
                    App.isConverting := App.isConverting st;
                    App.showSettings := true;
                    App.settings := App.settings st;
                    App.examples := App.examples st |}))
  /\ (App.isConfigured (App.settings st) = true ->
      App.document st = None ->
      App.handleConvert w st = ([], inr st))
  /\ (forall doc,
        App.isConfigured (App.settings st) = true ->
        App.document st = Some doc ->
        let call :=
          convertToMarkdown w (DocumentInfo.extractedText doc) (App.settings st)
            (App.selectedExampleData (App.settings st) (App.examples st)) in
        exists result,
          outcome call = inr result
          /\ App.handleConvert w st
             = (events call,
                inr {| App.document := App.document st;
                       App.conversionResult := Some result;
                       App.isConverting := false;
                       App.showSettings := App.showSettings st;
                       App.settings := App.settings st;
                       App.examples := App.examples st |})).
Proof.
  assert (Hrun : forall doc,
             App.isConfigured (App.settings st) = true ->
             App.document st = Some doc ->
             exists result,
               outcome (convertToMarkdown w (DocumentInfo.extractedText doc)
                          (App.settings st)
                          (App.selectedExampleData (App.settings st) (App.examples st)))
               = inr result
               /\ App.handleConvert w st
                  = (events (convertToMarkdown w (DocumentInfo.extractedText doc)
                               (App.settings st)
                               (App.selectedExampleData (App.settings st)
                                  (App.examples st))),
                     inr {| App.document := App.document st;
                            App.conversionResult := Some result;
                            App.isConverting := false;
                            App.showSettings := App.showSettings st;
                            App.settings := App.settings st;
                            App.examples := App.examples st |})).
  { intros doc Hgate Hdoc.
    destruct (convertToMarkdown_resolves (DocumentInfo.extractedText doc) (App.settings st)
                (App.selectedExampleData (App.settings st) (App.examples st)))
      as [result Hresult].
    exists result. split; [exact Hresult|].
    unfold App.handleConvert. rewrite Hdoc, Hgate.
    match goal with
    | |- context [tryCatch ?m _] => set (call := m) in *
    end.
    rewrite (surjective_pairing call) at 1.
    change (fst call) with (events call). change (snd call) with (outcome call).
    rewrite Hresult. cbn [tryCatch bind ret]. rewrite app_nil_r. reflexivity. }
  split; [|split; [|split]].
  - destruct (App.isConfigured (App.settings st)) eqn:Hgate;
      destruct (App.document st) as [doc|] eqn:Hdoc.
    + destruct (Hrun doc eq_refl eq_refl) as (result & _ & ->).
      eexists. split; [reflexivity|]. cbn. auto.
    + unfold App.handleConvert. rewrite Hdoc, Hgate.
      eexists. split; [reflexivity|]. cbn. auto.
    + unfold App.handleConvert. rewrite Hdoc, Hgate.
      eexists. split; [reflexivity|]. cbn. auto.
    + unfold App.handleConvert. rewrite Hdoc, Hgate.
      eexists. split; [reflexivity|]. cbn. auto.
  - intros Hgate. unfold App.handleConvert. rewrite Hgate.
    now destruct (App.document st).
  - intros Hgate Hdoc. unfold App.handleConvert. rewrite Hdoc, Hgate.
    destruct st as [document result converting shown settings examples].
    cbn in Hdoc |- *. now rewrite Hdoc.
  - intros doc Hgate Hdoc call. exact (Hrun doc Hgate Hdoc).
Qed.

End AppConversion.

Section Upload.

Import FileProcessor.

Variable processText : string -> ConversionSettings.t -> M ProcessResult.t.
Variable w : World.

(** X19. The upload handler and PDF files.  A file that looks like a PDF
    by its MIME type or by its name is refused, when the settings given to
    the component are not configured, before it is validated or read, even
    if the plain-text branch of the extractor would have taken it.  When no
    settings are given at all the gate is open, and a valid file of the PDF
    branch is refused by the extractor instead, again unread.  Only the
    first file of a drop is looked at. *)
Theorem upload_gate_for_pdf (file : File.t) (others : list File.t)
    (error0 : option string) :
  (forall settings,
     isPdf file = true ->
     App.isConfigured settings = false ->
     FileUpload.handleFiles processText w (Some settings) error0 (file :: others)
     = ([], inr {| FileUpload.error :=
                     Some "PDF processing requires LLM configuration. Please configure your LLM provider in settings first.";
                   FileUpload.processed := None |}))
  /\ (validateFile file DEFAULT_OPTIONS = inr tt ->
      reachesPdfBranch file = true ->
      FileUpload.handleFiles processText w None error0 (file :: others)
      = ([], inr {| FileUpload.error :=
                      Some "Failed to extract text: PDF processing requires LLM settings for text cleaning";
                    FileUpload.processed := None |}))
  /\ (forall settings,
        FileUpload.handleFiles processText w settings error0 (file :: others)
        = FileUpload.handleFiles processText w settings error0 [file]).
Proof.
  split; [|split].
  - intros settings Hpdf Hgate.
    unfold FileUpload.handleFiles, FileUpload.validateFileForPDF.
    unfold isPdf in Hpdf. unfold App.isConfigured in Hgate.
    now rewrite Hpdf, Hgate.
  - intros Hvalid Hpdf.
    unfold reachesPdfBranch in Hpdf.
    apply andb_true_iff in Hpdf as [Hpdf Hp].
    apply andb_true_iff in Hpdf as [Ht Hd].
    apply negb_true_iff in Ht, Hd.
    unfold isTxt in Ht. unfold isDocx in Hd. unfold isPdf in Hp.
    unfold FileUpload.handleFiles, FileUpload.validateFileForPDF.
    cbv zeta. unfold FileProcessor.extractText.
    rewrite Hvalid, bind_lift_inr, Ht, Hd, Hp.
    now rewrite tryCatch_throw.
  - reflexivity.
Qed.

(** X20. What the upload handler shows is what the extractor did: for a
    file that passes the PDF gate, when [extractText] resolves the document
    handed on carries the file's own name, size and MIME type with the
    extracted text, and the error is cleared; when it rejects, the error is
    the message of the rejection and no document is handed on.  The handler
    itself never throws and adds no effect. *)
Theorem upload_reports_the_extraction (file : File.t) (others : list File.t)
    (settings : option ConversionSettings.t) (error0 : option string) :
  FileUpload.validateFileForPDF settings file = None ->
  let extraction := FileProcessor.extractText processText w file settings in
  let handled :=
    FileUpload.handleFiles processText w settings error0 (file :: others) in
  events handled = events extraction
  /\ (forall text,
        outcome extraction = inr text ->
        outcome handled
        = inr {| FileUpload.error := None;
                 FileUpload.processed :=
                   Some (DocumentInfo.mk (File.name file) (File.size file)
                           (File.type file) text None None) |})
  /\ (forall e,
        outcome extraction = inl e ->
        outcome handled
        = inr {| FileUpload.error := Some (messageOr "Failed to process file" e);
                 FileUpload.processed := None |}).
Proof.
  intros Hgate extraction handled.
  unfold handled, FileUpload.handleFiles. rewrite Hgate. fold extraction.
  split; [|split].
  - rewrite events_tryCatch_ret. apply events_bind_ret.
  - intros text H. now rewrite outcome_tryCatch, outcome_bind, H.
  - intros e H. now rewrite outcome_tryCatch, outcome_bind, H.
Qed.

End Upload.

Section Examples.

Import ExamplesManager.

Lemma filter_other_ids (id : string) (selected : list string) (x : string) :
  In x (filter (fun exId => negb (String.eqb exId id)) selected)
  <-> In x selected /\ x <> id.
Proof.
  rewrite filter_In, negb_true_iff, String.eqb_neq. reflexivity.
Qed.

(** X21. The handlers of the examples panel keep the selection inside the
    list of examples: if every selected identifier names an example, it is
    still so after an example is added, after one is deleted, and after an
    example of the list is ticked or unticked.  After a deletion the
    identifier is neither selected nor the identifier of a remaining
    example; after unticking it is not selected. *)
Theorem selection_stays_within_examples (examples : list ConversionExample.t)
    (selected : list string) :
  selectionWithinExamples examples selected ->
  (forall now newExample,
     selectionWithinExamples (handleAddExample now examples newExample) selected)
  /\ (forall id,
        selectionWithinExamples (fst (handleDeleteExample id examples selected))
          (snd (handleDeleteExample id examples selected))
        /\ ~ In id (snd (handleDeleteExample id examples selected))
        /\ ~ In id (map ConversionExample.id
                      (fst (handleDeleteExample id examples selected))))
  /\ (forall id ticked,
        In id (map ConversionExample.id examples) ->
        selectionWithinExamples examples (handleSelectionChange id ticked selected))
  /\ (forall id, ~ In id (handleSelectionChange id false selected)).
Proof.
  intros Hinv. split; [|split; [|split]].
  - intros now newExample id Hid. unfold handleAddExample.
    destruct (isEmpty (name newExample) || isEmpty (originalText newExample)
              || isEmpty (convertedMarkdown newExample)); [now apply Hinv|].
    rewrite map_app, in_app_iff. left. now apply Hinv.
  - intros id. cbn [handleDeleteExample fst snd]. split; [|split].
    + intros x Hx. apply filter_other_ids in Hx as [Hx Hne].
      apply Hinv, in_map_iff in Hx as [ex [Hex Hin]].
      apply in_map_iff. exists ex. split; [assumption|].
      apply filter_In. split; [assumption|].
      apply negb_true_iff, String.eqb_neq. congruence.
    + intros Hx. apply filter_other_ids in Hx as [_ Hne]. now apply Hne.
    + intros Hx. apply in_map_iff in Hx as [ex [Hex Hin]].
      apply filter_In in Hin as [_ Hne].
      apply negb_true_iff, String.eqb_neq in Hne. now apply Hne.
  - intros id ticked Hid x Hx. unfold handleSelectionChange in Hx.
    destruct ticked.
    + apply in_app_iff in Hx as [Hx | [<- | []]]; [now apply Hinv | assumption].
    + apply filter_other_ids in Hx as [Hx _]. now apply Hinv.
  - intros id Hx. cbn [handleSelectionChange] in Hx.
    apply filter_other_ids in Hx as [_ Hne]. now apply Hne.
Qed.

(** X22. The examples that a conversion sends.  With [useExamples] off
    none is sent, whatever is selected.  With it on, an example is sent
    exactly when it is in the list and its identifier is selected; and when
    the selection is inside the list, as the handlers of the panel keep it,
    every selected identifier has an example that is sent. *)
Theorem selected_examples_are_sent (settings : ConversionSettings.t)
    (examples : list ConversionExample.t) :
  (ConversionSettings.useExamples settings = false ->
   App.selectedExampleData settings examples = [])
  /\ (ConversionSettings.useExamples settings = true ->
      (forall example,
         In example (App.selectedExampleData settings examples)
         <-> In example examples
             /\ In (ConversionExample.id example)
                  (ConversionSettings.selectedExamples settings))
      /\ (selectionWithinExamples examples (ConversionSettings.selectedExamples settings) ->
          forall id,
            In id (ConversionSettings.selectedExamples settings) ->
            exists example,
              In example (App.selectedExampleData settings examples)
              /\ ConversionExample.id example = id)).
Proof.
  unfold App.selectedExampleData. split.
  - intros Hoff. now rewrite Hoff.
  - intros Hon. rewrite Hon.
    assert (Hsent : forall example,
               In example
                 (filter (fun ex => arrayIncludes
                                      (ConversionSettings.selectedExamples settings)
                                      (ConversionExample.id ex)) examples)
               <-> In example examples
                   /\ In (ConversionExample.id example)
                        (ConversionSettings.selectedExamples settings)).
    { intros example. now rewrite filter_In, arrayIncludes_In. }
    split; [exact Hsent|].
    intros Hinv id Hid.
    destruct (proj1 (in_map_iff _ _ _) (Hinv id Hid)) as [example [Hex Hin]].
    exists example. split; [|assumption].
    apply Hsent. split; [assumption | now rewrite Hex].
Qed.

End Examples.

Section DownloadNames.

Import ConversionPreview.

Lemma removeOthers_kept (s : string) : forallChars keptChar (removeOthers s) = true.
Proof.
  induction s as [|c r IH]; [reflexivity|].
  cbn [removeOthers]. destruct (keptChar c) eqn:E; [|exact IH].
  cbn [forallChars]. now rewrite E.
Qed.

Lemma underscoreSpaces_no_space (s : string) :
  forall inRun,
    forallChars keptChar s = true ->
    forallChars (fun c => keptChar c && negb (isWhiteSpace c))
      (underscoreSpacesFrom inRun s) = true.
Proof.
  induction s as [|c r IH]; intros inRun H; [reflexivity|].
  cbn [forallChars] in H. apply andb_true_iff in H as [Hc Hr].
  cbn [underscoreSpacesFrom]. destruct (isWhiteSpace c) eqn:W.
  - destruct inRun; [now apply IH|].
    cbn [forallChars]. now rewrite (IH true Hr).
  - cbn [forallChars]. now rewrite Hc, W, (IH false Hr).
Qed.

Lemma lowerChar_fileNameChar (c : ascii) :
  keptChar c && negb (isWhiteSpace c) = true -> fileNameChar (lowerChar c) = true.
Proof.
  destruct c as [[] [] [] [] [] [] [] []]; intros H; (reflexivity || discriminate H).
Qed.

Lemma toLowerCase_fileNameChars (s : string) :
  forallChars (fun c => keptChar c && negb (isWhiteSpace c)) s = true ->
  forallChars fileNameChar (toLowerCase s) = true.
Proof.
  induction s as [|c r IH]; [reflexivity|].
  cbn [forallChars toLowerCase]. intros H. apply andb_true_iff in H as [Hc Hr].
  now rewrite (lowerChar_fileNameChar c Hc), (IH Hr).
Qed.

(** X23. The file name that [generateMarkdownFilename] returns is a stem
    made of lower-case letters, digits, hyphens and underscores only (so
    without any dot, slash, space or upper-case letter, whatever the name of
    the uploaded file), followed by [_converted_], the date and [.md]. *)
Theorem markdown_filename_is_safe (today originalFilename : string) :
  exists stem,
    generateMarkdownFilename today originalFilename
    = stem ++ "_converted_" ++ today ++ ".md"
    /\ forallChars fileNameChar stem = true
    /\ endsWith (generateMarkdownFilename today originalFilename) ".md" = true.
Proof.
  unfold generateMarkdownFilename. cbv zeta. eexists.
  split; [reflexivity|]. split.
  - apply toLowerCase_fileNameChars, underscoreSpaces_no_space, removeOthers_kept.
  - rewrite <- !append_assoc. apply endsWith_append.
Qed.

Lemma extensionTail_no_dot (s : string) :
  extensionTail s = true -> hasChar dot s = false.
Proof.
  induction s as [|c r IH]; [discriminate|].
  cbn [extensionTail hasChar]. destruct r as [|d r'].
  - unfold extensionChar. intros H. apply andb_true_iff in H as [_ H].
    apply negb_true_iff in H. now rewrite H.
  - intros H. apply andb_true_iff in H as [Hc Hr].
    unfold extensionChar in Hc. apply andb_true_iff in Hc as [_ Hc].
    apply negb_true_iff in Hc. rewrite Hc. now apply IH.
Qed.

Lemma extensionTail_of_chars (s : string) :
  s <> EmptyString -> forallChars extensionChar s = true -> extensionTail s = true.
Proof.
  induction s as [|c r IH]; [congruence|].
  intros _ H. cbn [forallChars] in H. apply andb_true_iff in H as [Hc Hr].
  cbn [extensionTail]. destruct r as [|d r']; [exact Hc|].
  rewrite Hc. now apply IH.
Qed.

Lemma replaceExtension_without_dot (s replacement : string) :
  hasChar dot s = false -> replaceExtension s replacement = s.
Proof.
  induction s as [|c r IH]; [reflexivity|].
  cbn [hasChar replaceExtension]. intros H. apply orb_false_iff in H as [Hc Hr].
  now rewrite Hc, (IH Hr).
Qed.

Lemma replaceExtension_before_dot (stem rest replacement : string) :
  replaceExtension (stem ++ String dot rest) replacement
  = stem ++ replaceExtension (String dot rest) replacement.
Proof.
  induction stem as [|c r IH]; [reflexivity|].
  cbn [append replaceExtension].
  destruct (extensionTail (r ++ String dot rest)) eqn:E.
  - apply extensionTail_no_dot in E. rewrite hasChar_app in E. cbn [hasChar] in E.
    rewrite Ascii.eqb_refl, orb_true_r in E. discriminate.
  - now rewrite andb_false_r, IH.
Qed.

(** X24. The file name that [handleDownloadOriginal] computes for the
    extracted text.  A file name that ends in a dot and an extension (one or
    more code units, none a dot or a slash) has that extension replaced by
    [_original.txt].  A name without any dot, and a name that ends in a dot,
    are kept as they are, without the suffix. *)
Theorem original_download_name :
  (forall stem extension,
     extension <> EmptyString ->
     forallChars extensionChar extension = true ->
     originalDownloadName (stem ++ "." ++ extension) = stem ++ "_original.txt")
  /\ (forall name, hasChar dot name = false -> originalDownloadName name = name)
  /\ (forall stem, originalDownloadName (stem ++ ".") = stem ++ ".").
Proof.
  unfold originalDownloadName. split; [|split].
  - intros stem extension Hne Hchars.
    change ("." ++ extension) with (String dot extension).
    rewrite replaceExtension_before_dot. cbn [replaceExtension].
    now rewrite Ascii.eqb_refl, (extensionTail_of_chars extension Hne Hchars).
  - intros name. apply replaceExtension_without_dot.
  - intros stem. change "." with (String dot EmptyString).
    now rewrite replaceExtension_before_dot.
Qed.

End DownloadNames.

(* ================================================================= *)
(** ** Instances of the properties of the callers and the clients *)

Section MoreInstances.

Import FileProcessor LLMService.

Lemma hosted_error_answer_witness :
  outcome (convertToMarkdown (Sample.answering Sample.refusal) "test text" Sample.openai [])
  = inr (conversionFailure "API key invalid" 250).
Proof.
  refine (proj1 (hosted_error_answer (Sample.answering Sample.refusal) "test text"
                   Sample.openai [] "openai" "OpenAI" Sample.refusal _ _ _ _ _ _)
            [("error", JObj [("message", JStr "API key invalid")])]
            [("message", JStr "API key invalid")] "API key invalid" _ _ _ _).
  - reflexivity.
  - left. reflexivity.
  - reflexivity.
  - discriminate.
  - intros request. reflexivity.
  - reflexivity.
  - reflexivity.
  - reflexivity.
  - reflexivity.
  - discriminate.
Defined.

Lemma local_error_answer_witness :
  outcome (convertToMarkdown (Sample.answering Sample.refusal) "test text" Sample.local [])
  = inr (conversionFailure "Local API request failed: 401 Unauthorized. denied" 250).
Proof.
  refine (local_error_answer (Sample.answering Sample.refusal) "test text" Sample.local []
            Sample.refusal "denied" _ _ _ _ _).
  - reflexivity.
  - reflexivity.
  - intros request. reflexivity.
  - reflexivity.
  - reflexivity.
Defined.

Lemma malformed_completion_witness :
  outcome (convertToMarkdown (Sample.answering Sample.noChoices) "test text" Sample.openai [])
  = inr (conversionFailure "Cannot read properties of undefined (reading 'message')" 250).
Proof.
  refine (proj1 (proj2 (malformed_completion (Sample.answering Sample.noChoices) "test text"
                          Sample.openai [] Sample.noChoices [("choices", JArr [])]
                          _ _ _ _ _ _)) _).
  - reflexivity.
  - reflexivity.
  - discriminate.
  - intros request. reflexivity.
  - reflexivity.
  - reflexivity.
  - reflexivity.
Defined.

Lemma anthropic_success_witness :
  outcome (convertToMarkdown (Sample.answering Sample.messagesAnswer) "test text"
             Sample.anthropic [])
  = inr (ConversionResult.mk true (JStr "# X") (JNum 15) None 250).
Proof.
  refine (proj1 (anthropic_success (Sample.answering Sample.messagesAnswer) "test text"
                   Sample.anthropic [] Sample.messagesAnswer _
                   [("type", JStr "text"); ("text", JStr "# X")] [] _ _ _ _ _ _ _)
            [("input_tokens", JNum 10); ("output_tokens", JNum 5)] 10%float 5%float _ _ _).
  - reflexivity.
  - reflexivity.
  - discriminate.
  - intros request. reflexivity.
  - reflexivity.
  - reflexivity.
  - reflexivity.
  - reflexivity.
  - reflexivity.
  - reflexivity.
Defined.

Lemma hosted_requests_witness :
  exists chat messages,
    events (callOpenAI Sample.world "prompt" Sample.openai Sample.openaiProvider)
    = [EvFetch chat]
    /\ events (callAnthropic Sample.world "prompt" Sample.openai Sample.openaiProvider)
       = [EvFetch messages]
    /\ Request.url chat = "https://api.openai.com/v1/chat/completions"
    /\ headerOf "Authorization" (Request.headers chat) = Some "Bearer test-key"
    /\ headerOf "Authorization" (Request.headers messages) = None.
Proof.
  destruct (hosted_requests Sample.world "prompt" Sample.openai Sample.openaiProvider)
    as (chat & messages & H1 & _ & H3 & H4 & _ & H6 & H7 & _).
  - discriminate.
  - exists chat, messages. repeat split; assumption.
Defined.

Lemma every_example_in_default_prompt_witness :
  includes (buildPrompt "test text" [Sample.example1] (Some "  "))
    ("Example 1 (Statement of Claim):" ++ LF
       ++ "Original:" ++ LF ++ "Original legal text" ++ LF ++ LF
       ++ "Converted:" ++ LF ++ "# Legal Document" ++ LF ++ LF)
  = true
  /\ endsWith (buildPrompt "test text" [Sample.example1] (Some "  "))
       ("test text" ++ closingInstruction) = true.
Proof.
  exact (every_example_in_default_prompt "test text" "  " [] [] Sample.example1 eq_refl).
Defined.

Lemma text_and_docx_bypass_the_llm_witness :
  Pipeline.extractText Sample.world Sample.note None
  = ([EvReadAsText Sample.note], inr "plain text of the file")
  /\ Pipeline.extractText Sample.world Sample.brief None
     = ([EvReadAsArrayBuffer Sample.brief; EvExtractRawText (Some [])],
        inr "text of the docx").
Proof.
  split.
  - refine (proj1 (text_and_docx_bypass_the_llm (processText Sample.world) Sample.world
                     Sample.note None _) _); reflexivity.
  - refine (proj2 (text_and_docx_bypass_the_llm (processText Sample.world) Sample.world
                     Sample.brief None _) _ _); reflexivity.
Defined.

Lemma extractText_rejections_witness :
  ErrorObj "File size must be less than 10 MB"
  = ErrorObj "File size must be less than 10 MB"
  \/ ErrorObj "File size must be less than 10 MB"
     = ErrorObj "Please upload a TXT, DOCX, or PDF file"
  \/ exists cause,
       ErrorObj "File size must be less than 10 MB"
       = ErrorObj ("Failed to extract text: " ++ cause).
Proof.
  exact (extractText_rejections (processText Sample.world) Sample.world Sample.oversize None
           (ErrorObj "File size must be less than 10 MB") eq_refl).
Defined.

Lemma pdf_pages_in_order_witness :
  extractTextFromPdf Sample.world Sample.pdf
  = ([EvReadAsArrayBuffer Sample.pdf; EvGetDocument []; EvGetPage 1],
     inr "mock pdf content")
  /\ extractTextFromPdf (Sample.holding Sample.brokenDocument) Sample.pdf
     = ([EvReadAsArrayBuffer Sample.pdf; EvGetDocument []; EvGetPage 1; EvGetPage 2],
        inl (ErrorObj "Failed to extract text from PDF: page is damaged. Please ensure the PDF contains selectable text.")).
Proof.
  split.
  - refine (proj1 (pdf_pages_in_order Sample.world Sample.pdf [] _)
              [[ {| str := JStr "mock" |}; {| str := JStr " pdf " |};
                 {| str := JUndefined |}; {| str := JStr "content" |} ]] _ _).
    + reflexivity.
    + reflexivity.
    + vm_compute. discriminate.
  - refine (proj2 (pdf_pages_in_order (Sample.holding Sample.brokenDocument) Sample.pdf [] _)
              [[ {| str := JStr "first" |} ]] (ErrorObj "page is damaged") [inr []] _).
    + reflexivity.
    + reflexivity.
Defined.

Lemma pdf_without_text_layer_witness :
  Pipeline.extractText (Sample.holding (map inr Sample.scannedPages)) Sample.pdf
    (Some Sample.openai)
  = ([EvReadAsArrayBuffer Sample.pdf; EvGetDocument []; EvGetPage 1; EvGetPage 2],
     inl (ErrorObj
            ("Failed to extract text: Failed to extract text from PDF: "
               ++ "No readable text found in PDF. The PDF may not contain selectable text or may be image-based. Please ensure the PDF is OCRed and contains selectable text."
               ++ ". Please ensure the PDF contains selectable text."))).
Proof.
  refine (pdf_without_text_layer (Sample.holding (map inr Sample.scannedPages))
            (processText (Sample.holding (map inr Sample.scannedPages)))
            Sample.pdf [] Sample.scannedPages Sample.openai _ _ _ _ _); reflexivity.
Defined.

Lemma dropped_items_leave_no_trace_witness :
  pageTextOf [ {| str := JStr "mock" |}; {| str := JUndefined |}; {| str := JStr "content" |} ]
  = "mock content".
Proof.
  exact (dropped_items_leave_no_trace [ {| str := JStr "mock" |} ]
           [ {| str := JStr "content" |} ] {| str := JUndefined |} eq_refl).
Defined.

Lemma upload_reports_the_extraction_witness :
  outcome (FileUpload.handleFiles (processText Sample.world) Sample.world None None
             [Sample.note])
  = inr {| FileUpload.error := None;
           FileUpload.processed :=
             Some (DocumentInfo.mk "notes.txt" 11 "text/plain" "plain text of the file"
                     None None) |}.
Proof.
  refine (proj1 (proj2 (upload_reports_the_extraction (processText Sample.world) Sample.world
                          Sample.note [] None None _))
            "plain text of the file" _); reflexivity.
Defined.

Lemma selection_stays_within_examples_witness :
  selectionWithinExamples
    (fst (ExamplesManager.handleDeleteExample "1" [Sample.example1] ["1"]))
    (snd (ExamplesManager.handleDeleteExample "1" [Sample.example1] ["1"]))
  /\ ~ In "1" (ExamplesManager.handleSelectionChange "1" false ["1"]).
Proof.
  assert (Hinv : selectionWithinExamples [Sample.example1] ["1"]).
  { intros id [<- | []]. left. reflexivity. }
  split.
  - exact (proj1 (proj1 (proj2 (selection_stays_within_examples _ _ Hinv)) "1")).
  - exact (proj2 (proj2 (proj2 (selection_stays_within_examples _ _ Hinv))) "1").
Defined.

Lemma requests_carry_the_prompt_witness :
  exists request,
    events (processText Sample.world "Clean this text" Sample.openai) = [EvFetch request]
    /\ Request.method request = "POST"
    /\ bodyField "messages" request
       = JArr [JObj [("role", JStr "user"); ("content", JStr "Clean this text")]].
Proof.
  eexists. split; [reflexivity|].
  apply (proj1 (requests_carry_the_prompt Sample.world Sample.openai)).
  left. reflexivity.
Defined.


Lemma formatFileSize_whole_bytes_witness :
  formatFileSize 512 = "512 Bytes" /\ formatFileSize 1023 = "1023 Bytes".
Proof.
  split.
  - apply (formatFileSize_whole_bytes 512%Z). lia.
  - apply (formatFileSize_whole_bytes 1023%Z). lia.
Defined.

Lemma app_gate_and_client_guards_witness :
  (exists request,
     events (convertToMarkdown Sample.world "test text" Sample.openai [])
     = [EvFetch request])
  /\ App.isConfigured Sample.keyless = false.
Proof.
  split.
  - apply (proj1 (app_gate_and_client_guards Sample.world Sample.openai)
             Sample.openaiProvider); reflexivity.
  - apply (proj2 (app_gate_and_client_guards Sample.world Sample.keyless));
      [discriminate | reflexivity].
Defined.

Lemma handleConvert_stores_the_client_result_witness :
  exists result,
    outcome (convertToMarkdown Sample.world "plain text of the file" Sample.selecting
               [Sample.example1])
    = inr result
    /\ App.handleConvert Sample.world Sample.loaded
       = (events (convertToMarkdown Sample.world "plain text of the file" Sample.selecting
                    [Sample.example1]),
          inr {| App.document := App.document Sample.loaded;
                 App.conversionResult := Some result;
                 App.isConverting := false;
                 App.showSettings := false;
                 App.settings := Sample.selecting;
                 App.examples := [Sample.example1] |}).
Proof.
  exact (proj2 (proj2 (proj2 (handleConvert_stores_the_client_result Sample.world
                                Sample.loaded)))
           (DocumentInfo.mk "notes.txt" 11 "text/plain" "plain text of the file" None None)
           eq_refl eq_refl).
Defined.

Lemma upload_gate_for_pdf_witness :
  FileUpload.handleFiles (processText Sample.world) Sample.world (Some Sample.keyless) None
    [Sample.pdf]
  = ([], inr {| FileUpload.error :=
                  Some "PDF processing requires LLM configuration. Please configure your LLM provider in settings first.";
                FileUpload.processed := None |}).
Proof.
  apply (proj1 (upload_gate_for_pdf (processText Sample.world) Sample.world Sample.pdf []
                  None)); reflexivity.
Defined.

Lemma selected_examples_are_sent_witness :
  In Sample.example1 (App.selectedExampleData Sample.selecting [Sample.example1]).
Proof.
  apply (proj2 (proj1 (proj2 (selected_examples_are_sent Sample.selecting [Sample.example1])
                         eq_refl)
                  Sample.example1)).
  split; left; reflexivity.
Defined.

Lemma original_download_name_witness :
  ConversionPreview.originalDownloadName "brief.docx" = "brief_original.txt"
  /\ ConversionPreview.originalDownloadName "brief" = "brief".
Proof.
  split.
  - apply (proj1 original_download_name "brief" "docx"); [discriminate | reflexivity].
  - apply (proj1 (proj2 original_download_name) "brief"). reflexivity.
Defined.

End MoreInstances.
